(** * convert-pack-format: legacy (keyed) schema collections to array format

    A shallow embedding of [scripts/convert-pack-format.py].  The script
    loads a JSON document, turns the two fields [object_type_schemas] and
    [relationship_type_schemas] from dictionaries keyed by type name into
    lists of dictionaries that carry the key under ["name"], and writes
    the document back.

    Python values are embedded as the inductive type [value]; Python
    dictionaries keep their insertion order and are association lists;
    exceptions are the [Raise] branch of a result type; the file system
    and the standard output are an explicit world that every effectful
    operation threads. *)

From Stdlib Require Import ZArith Ascii String Floats.SpecFloat.
From stdpp Require Import base option list strings pretty gmap.

Local Open Scope string_scope.

(** ** Python values produced by [json.load] *)

#[warning="-register-all"]
Inductive value : Type :=
| VNone
| VBool (b : bool)
| VInt (n : Z)
| VFloat (f : spec_float)
| VStr (s : string)
| VList (l : list value)
| VDict (d : list (string * value)).

(** A [dict] with string keys, in insertion order. *)
Abbreviation dict := (list (string * value)).

(** ** Exceptions *)

Inductive exn : Type :=
| TypeError
| AttributeError
| KeyError (key : string)
| FileNotFoundError
| IsADirectoryError
| NotADirectoryError
| JSONDecodeError
| SystemExit (code : Z)
| UnicodeEncodeError
| UnicodeDecodeError
| ValueError
| RecursionError
| OSError (errno : Z).

Inductive res (A : Type) : Type :=
| Ok (a : A)
| Raise (e : exn).
Arguments Ok {A} a.
Arguments Raise {A} e.

Definition rbind {A B} (r : res A) (k : A -> res B) : res B :=
  match r with
  | Ok a => k a
  | Raise e => Raise e
  end.

Declare Scope res_scope.
Delimit Scope res_scope with res.
Notation "x <- e ;; k" := (rbind e (fun x => k))
  (at level 100, e at next level, right associativity) : res_scope.

(** The spec's names for the failures of the conversion. *)
Definition MalformedSchemaEntry (e : exn) : Prop := e = TypeError.
Definition MissingRequiredField (e : exn) : Prop := exists k, e = KeyError k.

(** ** Dictionaries *)

Module Dict.

Fixpoint get (k : string) (d : dict) : option value :=
  match d with
  | [] => None
  | (k', v) :: d' => if String.eqb k k' then Some v else get k d'
  end.

Definition mem (k : string) (d : dict) : bool :=
  match get k d with Some _ => true | None => false end.

(** [d[k] = v]: an existing key keeps its position, a new key goes last. *)
Fixpoint set (k : string) (v : value) (d : dict) : dict :=
  match d with
  | [] => [(k, v)]
  | (k', v') :: d' =>
      if String.eqb k k' then (k, v) :: d' else (k', v') :: set k v d'
  end.

Definition keys (d : dict) : list string := map fst d.

End Dict.

(** ** Strings *)

(** [needle in hay] for two [str]: substring search. *)
Fixpoint is_prefix (p s : string) : bool :=
  match p, s with
  | EmptyString, _ => true
  | String a p', String b s' => if Ascii.eqb a b then is_prefix p' s' else false
  | String _ _, EmptyString => false
  end.

Fixpoint str_contains (needle hay : string) : bool :=
  if is_prefix needle hay then true
  else match hay with
       | EmptyString => false
       | String _ hay' => str_contains needle hay'
       end.

(** [len] of a [str] counts code points; strings here are UTF-8 bytes, and
    a code point starts at every byte that is not a continuation byte. *)
Definition is_continuation (a : Ascii.ascii) : bool :=
  let n := Ascii.N_of_ascii a in (128 <=? n)%N && (n <? 192)%N.

Fixpoint str_len (s : string) : nat :=
  match s with
  | EmptyString => 0
  | String a s' => (if is_continuation a then 0 else 1) + str_len s'
  end.

(** ** Built-in operations on values *)

(** Truth value, as tested by [if not old_schemas]. *)
Definition truthy (v : value) : bool :=
  match v with
  | VNone => false
  | VBool b => b
  | VInt n => negb (n =? 0)%Z
  | VFloat (S754_zero _) => false
  | VFloat _ => true
  | VStr s => negb (String.eqb s "")
  | VList l => match l with [] => false | _ => true end
  | VDict d => match d with [] => false | _ => true end
  end.

Definition is_dict (v : value) : bool :=
  match v with VDict _ => true | _ => false end.

(** [x == k] for a string [k]. *)
Definition eq_str (k : string) (x : value) : bool :=
  match x with VStr s => String.eqb k s | _ => false end.

(** [k in v] for a string [k]. *)
Definition py_in (k : string) (v : value) : res bool :=
  match v with
  | VDict d => Ok (Dict.mem k d)
  | VList l => Ok (existsb (eq_str k) l)
  | VStr s => Ok (str_contains k s)
  | _ => Raise TypeError
  end.

(** [v[k]] for a string [k]. *)
Definition py_getitem (v : value) (k : string) : res value :=
  match v with
  | VDict d => match Dict.get k d with Some x => Ok x | None => Raise (KeyError k) end
  | _ => Raise TypeError
  end.

(** [v.items()] *)
Definition py_items (v : value) : res dict :=
  match v with
  | VDict d => Ok d
  | _ => Raise AttributeError
  end.

(** [v.get(k, default)] *)
Definition py_get (v : value) (k : string) (default : value) : res value :=
  match v with
  | VDict d => Ok (match Dict.get k d with Some x => x | None => default end)
  | _ => Raise AttributeError
  end.

(** [v[k] = x] for a string [k]. *)
Definition py_setitem (v : value) (k : string) (x : value) : res value :=
  match v with
  | VDict d => Ok (VDict (Dict.set k x d))
  | _ => Raise TypeError
  end.

(** [len(v)] *)
Definition py_len (v : value) : res nat :=
  match v with
  | VStr s => Ok (str_len s)
  | VList l => Ok (length l)
  | VDict d => Ok (length d)
  | _ => Raise TypeError
  end.

(** ** The two conversion functions *)

Local Open Scope res_scope.

(** [if k in schema: new_schema[k] = schema[k]] *)
Definition copy_if_in (k : string) (schema : value) (new_schema : dict) : res dict :=
  present <- py_in k schema;;
  if present : bool then
    x <- py_getitem schema k;;
    Ok (Dict.set k x new_schema)
  else Ok new_schema.

(** [for name, schema in items: ...; result.append(new_schema)] *)
Fixpoint for_items (body : string -> value -> res dict)
    (items : dict) (result : list value) : res (list value) :=
  match items with
  | [] => Ok result
  | (name, schema) :: rest =>
      new_schema <- body name schema;;
      for_items body rest (result ++ [VDict new_schema])
  end.

Definition object_entry (name : string) (schema : value) : res dict :=
  let new_schema := [("name", VStr name)] in
  new_schema <- copy_if_in "label" schema new_schema;;
  new_schema <- copy_if_in "description" schema new_schema;;
  new_schema <- copy_if_in "properties" schema new_schema;;
  Ok new_schema.

Definition convert_object_schemas (old_schemas : value) : res (list value) :=
  if negb (truthy old_schemas) then Ok []
  else
    items <- py_items old_schemas;;
    for_items object_entry items [].

Definition relationship_entry (name : string) (schema : value) : res dict :=
  let new_schema := [("name", VStr name)] in
  new_schema <- copy_if_in "label" schema new_schema;;
  new_schema <- copy_if_in "description" schema new_schema;;
  new_schema <- copy_if_in "sourceTypes" schema new_schema;;
  new_schema <- copy_if_in "targetTypes" schema new_schema;;
  Ok new_schema.

Definition convert_relationship_schemas (old_schemas : value) : res (list value) :=
  if negb (truthy old_schemas) then Ok []
  else
    items <- py_items old_schemas;;
    for_items relationship_entry items [].

(** ** Paths ([pathlib.PurePosixPath])

    A path is its anchor ([""], ["/"] or ["//"]) and the names after it.
    [suffix] and [stem] are those of Python up to 3.13. *)

Record Path : Type := { anchor : string; names : list string }.

(** [s.split(sep)] *)
Fixpoint split (sep : Ascii.ascii) (s : string) : list string :=
  match s with
  | EmptyString => [""]
  | String a s' =>
      if Ascii.eqb a sep then "" :: split sep s'
      else match split sep s' with
           | [] => [String a ""]
           | w :: ws => String a w :: ws
           end
  end.

Definition is_name (x : string) : bool :=
  negb (String.eqb x "") && negb (String.eqb x ".").

(** [Path(s)]: empty and ["."] components are dropped; exactly two leading
    slashes are kept apart from one. *)
Definition path_of (s : string) : Path :=
  {| anchor :=
       if is_prefix "/" s then
         if is_prefix "//" s && negb (is_prefix "///" s) then "//" else "/"
       else "";
     names := List.filter is_name (split "/"%char s) |}.

Fixpoint join (sep : string) (l : list string) : string :=
  match l with
  | [] => ""
  | [x] => x
  | x :: l' => x +:+ sep +:+ join sep l'
  end.

(** [str(p)] *)
Definition path_str (p : Path) : string :=
  match names p with
  | [] => if String.eqb (anchor p) "" then "." else anchor p
  | _ => anchor p +:+ join "/" (names p)
  end.

(** [p.name] *)
Definition name (p : Path) : string := List.last (names p) "".

(** [s.rfind(c)] *)
Fixpoint rfind (c : Ascii.ascii) (s : string) : option nat :=
  match s with
  | EmptyString => None
  | String a s' =>
      match rfind c s' with
      | Some i => Some (S i)
      | None => if Ascii.eqb a c then Some 0 else None
      end
  end.

(** The index of the dot that starts the suffix: [0 < i < len(name) - 1]. *)
Definition suffix_index (nm : string) : option nat :=
  match rfind "."%char nm with
  | Some i => if (0 <? i)%nat && (i <? String.length nm - 1)%nat then Some i else None
  | None => None
  end.

(** [p.suffix] *)
Definition suffix (p : Path) : string :=
  let nm := name p in
  match suffix_index nm with
  | Some i => String.substring i (String.length nm - i) nm
  | None => ""
  end.

(** [p.stem] *)
Definition stem (p : Path) : string :=
  let nm := name p in
  match suffix_index nm with
  | Some i => String.substring 0 i nm
  | None => nm
  end.

(** [p.parent] *)
Definition parent (p : Path) : Path :=
  match names p with
  | [] => p
  | _ => {| anchor := anchor p; names := removelast (names p) |}
  end.

(** [p / s] for a string [s] *)
Definition joinpath (p : Path) (s : string) : Path :=
  let q := path_of s in
  if String.eqb (anchor q) "" then
    {| anchor := anchor p; names := names p ++ names q |}
  else q.

(** ** The world: files and standard output

    The file system maps the string of a path to a regular file or a
    directory.  A path without names (["."], ["/"]) is a directory that is
    always there.  Permissions and links are not modelled.  [stdout] holds
    one entry per [print] call. *)

Inductive node : Type :=
| File (content : string)
| Dir.

Record world : Type := { fs : gmap string node; stdout : list string }.

Definition M (A : Type) : Type := world -> res A * world.

Definition ret {A} (a : A) : M A := fun w => (Ok a, w).
Definition raise {A} (e : exn) : M A := fun w => (Raise e, w).
Definition lift {A} (r : res A) : M A := fun w => (r, w).

Definition bind {A B} (m : M A) (k : A -> M B) : M B :=
  fun w =>
    match m w with
    | (Ok a, w') => k a w'
    | (Raise e, w') => (Raise e, w')
    end.

Declare Scope io_scope.
Delimit Scope io_scope with io.
Notation "x <- e ;; k" := (bind e (fun x => k))
  (at level 100, e at next level, right associativity) : io_scope.
Notation "e ;; k" := (bind e (fun _ => k))
  (at level 100, right associativity) : io_scope.

Definition print (line : string) : M unit :=
  fun w => (Ok tt, {| fs := fs w; stdout := stdout w ++ [line] |}).

Definition lookup_path (files : gmap string node) (p : Path) : option node :=
  match names p with
  | [] => Some Dir
  | _ => files !! path_str p
  end.

(** [p.exists()] *)
Definition path_exists (p : Path) : M bool :=
  fun w => (Ok (bool_decide (is_Some (lookup_path (fs w) p))), w).

(** [with open(p, 'r') as f: f.read()] *)
Definition read_text (p : Path) : M string :=
  fun w =>
    match lookup_path (fs w) p with
    | Some (File content) => (Ok content, w)
    | Some Dir => (Raise IsADirectoryError, w)
    | None => (Raise FileNotFoundError, w)
    end.

(** Whether [open(p, 'w')] succeeds, and the exception if it does not. *)
Definition open_w (files : gmap string node) (p : Path) : res unit :=
  match lookup_path files p with
  | Some Dir => Raise IsADirectoryError
  | _ =>
      match lookup_path files (parent p) with
      | Some Dir => Ok tt
      | Some (File _) => Raise NotADirectoryError
      | None => Raise FileNotFoundError
      end
  end.

(** [with open(p, 'w') as f: f.write(content)] *)
Definition write_text (p : Path) (content : string) : M unit :=
  fun w =>
    match open_w (fs w) p with
    | Ok _ => (Ok tt, {| fs := <[path_str p := File content]> (fs w); stdout := stdout w |})
    | Raise e => (Raise e, w)
    end.

(** ** The library functions the script calls

    [json.loads], [json.dumps(_, indent=2)] and [str] on a value that is
    not a string are taken as they are. *)

Class Runtime : Type := {
  json_loads : string -> option value;
  json_dumps : value -> string;
  py_repr : value -> string
}.

Section Script.

Context `{Runtime}.

(** [json.load(f)] on the text of a file *)
Definition json_load (text : string) : res value :=
  match json_loads text with
  | Some v => Ok v
  | None => Raise JSONDecodeError
  end.

(** [f"{v}"] *)
Definition format_value (v : value) : string :=
  match v with
  | VStr s => s
  | _ => py_repr v
  end.

(** [len(pack[k])] *)
Definition len_field (pack : value) (k : string) : res nat :=
  (x <- py_getitem pack k;; py_len x)%res.

Local Open Scope io_scope.

Definition convert_pack (input_path output_path : Path) : M value :=
  print ("Reading " +:+ path_str input_path +:+ "...");;
  text <- read_text input_path;;
  pack <- lift (json_load text);;
  print "Converting object_type_schemas...";;
  old_obj_schemas <- lift (py_get pack "object_type_schemas" (VDict []));;
  pack <- (if is_dict old_obj_schemas then
             new_schemas <- lift (convert_object_schemas old_obj_schemas);;
             pack <- lift (py_setitem pack "object_type_schemas" (VList new_schemas));;
             n <- lift (len_field pack "object_type_schemas");;
             print ("  Converted " +:+ pretty n +:+ " object types");;
             ret pack
           else
             print "  Already in array format, skipping";;
             ret pack);;
  print "Converting relationship_type_schemas...";;
  old_rel_schemas <- lift (py_get pack "relationship_type_schemas" (VDict []));;
  pack <- (if is_dict old_rel_schemas then
             new_schemas <- lift (convert_relationship_schemas old_rel_schemas);;
             pack <- lift (py_setitem pack "relationship_type_schemas" (VList new_schemas));;
             n <- lift (len_field pack "relationship_type_schemas");;
             print ("  Converted " +:+ pretty n +:+ " relationship types");;
             ret pack
           else
             print "  Already in array format, skipping";;
             ret pack);;
  print ("Writing " +:+ path_str output_path +:+ "...");;
  write_text output_path (json_dumps pack);;
  print "✓ Conversion complete";;
  ret pack.

(** The output path of [main] when [sys.argv] has no third element. *)
Definition default_output_path (input_path : Path) : Path :=
  joinpath (parent input_path) (stem input_path +:+ "-converted.json").

Definition main (argv : list string) : M unit :=
  if (length argv <? 2)%nat then
    print "Usage: convert-pack-format.py <input.json> [output.json]";;
    raise (SystemExit 1)
  else
    let input_path := path_of (nth 1 argv "") in
    let output_path :=
      if (2 <? length argv)%nat then path_of (nth 2 argv "")
      else default_output_path input_path in
    found <- path_exists input_path;;
    if negb found then
      print ("Error: " +:+ path_str input_path +:+ " not found");;
      raise (SystemExit 1)
    else
      converted <- convert_pack input_path output_path;;
      print (String "010" "Validation:");;
      nm <- lift (py_getitem converted "name");;
      print ("  Name: " +:+ format_value nm);;
      version <- lift (py_getitem converted "version");;
      print ("  Version: " +:+ format_value version);;
      n <- lift (len_field converted "object_type_schemas");;
      print ("  Object types: " +:+ pretty n);;
      n <- lift (len_field converted "relationship_type_schemas");;
      print ("  Relationship types: " +:+ pretty n).

(** The exit status of the process for an outcome of [main]. *)
Definition exit_status (r : res unit) : Z :=
  match r with
  | Ok _ => 0
  | Raise (SystemExit code) => code
  | Raise _ => 1
  end.

End Script.

(** ** Specification vocabulary

    The definitions below are not code of the script: they say, as plain
    functions, what the theorems prove the script computes. *)

Definition object_fields : list string := ["label"; "description"; "properties"].
Definition relationship_fields : list string :=
  ["label"; "description"; "sourceTypes"; "targetTypes"].

(** The entries of [s] under the keys of [fields], in the order of [fields]. *)
Fixpoint select (fields : list string) (s : dict) : dict :=
  match fields with
  | [] => []
  | k :: fields' =>
      match Dict.get k s with
      | Some x => (k, x) :: select fields' s
      | None => select fields' s
      end
  end.

(** The entry values on which the membership tests or the subscripts of an
    entry with the keys [fields] raise. *)
Definition rejects (fields : list string) (schema : value) : bool :=
  match schema with
  | VDict _ => false
  | VList l => existsb (fun k => existsb (eq_str k) l) fields
  | VStr s => existsb (fun k => str_contains k s) fields
  | _ => true
  end.

Definition copied (fields : list string) (schema : value) : dict :=
  match schema with
  | VDict s => select fields s
  | _ => []
  end.

Definition entry_result (fields : list string) (key : string) (schema : value) : res dict :=
  if rejects fields schema then Raise TypeError
  else Ok (("name", VStr key) :: copied fields schema).

Definition converted_entries (fields : list string) (m : dict) : list value :=
  map (fun e => VDict (("name", VStr e.1) :: copied fields e.2)) m.

(** What one of the two blocks of [convert_pack] does to the document [d]
    and the line it prints. *)
Definition convert_field (conv : value -> res (list value)) (noun k : string)
    (d : dict) : res (dict * string) :=
  let old := default (VDict []) (Dict.get k d) in
  if is_dict old then
    (r <- conv old;;
     Ok (Dict.set k (VList r) d, "  Converted " +:+ pretty (length r) +:+ noun))%res
  else Ok (d, "  Already in array format, skipping").

(** A field value that [convert_pack] handles without raising. *)
Definition accepted (fields : list string) (old : option value) : bool :=
  match old with
  | Some (VDict m) => forallb (fun e => negb (rejects fields e.2)) m
  | _ => true
  end.

(** The converted element [out] of the entry [key: schema]: it is a
    dictionary whose keys are ["name"] and then the keys of [fields] that
    [schema] has, with the key under ["name"] and the values of [schema]
    under the others. *)
Definition carries_exactly (fields : list string) (key : string)
    (schema out : value) : Prop :=
  exists s o,
    schema = VDict s /\ out = VDict o
    /\ Dict.keys o = "name" :: List.filter (fun k => Dict.mem k s) fields
    /\ Dict.get "name" o = Some (VStr key)
    /\ (forall f, In f fields -> Dict.get f o = Dict.get f s)
    /\ (forall f, f <> "name" -> ~ In f fields -> Dict.get f o = None).

(** A string without ["/"], as every name of a parsed path is. *)
Fixpoint slash_free (s : string) : bool :=
  match s with
  | EmptyString => true
  | String a s' => negb (Ascii.eqb a "/") && slash_free s'
  end.

Definition log (w : world) (line : string) : world :=
  {| fs := fs w; stdout := stdout w ++ [line] |}.

Definition obj_key : string := "object_type_schemas".
Definition rel_key : string := "relationship_type_schemas".


(** The list that replaces a collection: none when the field holds a
    value that is not a dictionary, the empty list when it is absent. *)
Definition new_collection (fields : list string) (old : option value) : option (list value) :=
  match old with
  | None => Some []
  | Some (VDict m) => Some (converted_entries fields m)
  | Some _ => None
  end.

Definition updated (fields : list string) (k : string) (d : dict) : dict :=
  match new_collection fields (Dict.get k d) with
  | Some r => Dict.set k (VList r) d
  | None => d
  end.

Definition progress_line (fields : list string) (noun k : string) (d : dict) : string :=
  match new_collection fields (Dict.get k d) with
  | Some r => "  Converted " +:+ pretty (length r) +:+ noun
  | None => "  Already in array format, skipping"
  end.

Definition converted_pack (d : dict) : dict :=
  updated relationship_fields rel_key (updated object_fields obj_key d).

Section Outcome.

Context `{Runtime}.

(** The outcome of [convert_pack] on an input file that holds the
    dictionary [d]. *)
Definition convert_pack_outcome (input_path output_path : Path) (d : dict)
    (w : world) : res value * world :=
  let w0 := log (log w ("Reading " +:+ path_str input_path +:+ "..."))
              "Converting object_type_schemas..." in
  match convert_field convert_object_schemas " object types" obj_key d with
  | Raise e => (Raise e, w0)
  | Ok (d1, line1) =>
      let w1 := log (log w0 line1) "Converting relationship_type_schemas..." in
      match convert_field convert_relationship_schemas " relationship types" rel_key d1 with
      | Raise e => (Raise e, w1)
      | Ok (d2, line2) =>
          let w2 := log (log w1 line2) ("Writing " +:+ path_str output_path +:+ "...") in
          match open_w (fs w) output_path with
          | Raise e => (Raise e, w2)
          | Ok _ =>
              (Ok (VDict d2),
               {| fs := <[path_str output_path := File (json_dumps (VDict d2))]> (fs w);
                  stdout := stdout w2 ++ ["✓ Conversion complete"] |})
          end
      end
  end.

(** The conditions under which [convert_pack] returns: the input is a
    file that holds a dictionary, no entry of a legacy collection makes
    the conversion raise, and the output can be opened for writing. *)
Definition convertible (w : world) (input_path output_path : Path) (d : dict) : Prop :=
  (exists text, lookup_path (fs w) input_path = Some (File text)
                /\ json_loads text = Some (VDict d))
  /\ accepted object_fields (Dict.get obj_key d) = true
  /\ accepted relationship_fields (Dict.get rel_key d) = true
  /\ open_w (fs w) output_path = Ok tt.

(** The world after a [convert_pack] that returns. *)
Definition converted_world (w : world) (input_path output_path : Path) (d : dict) : world :=
  {| fs := <[path_str output_path := File (json_dumps (VDict (converted_pack d)))]> (fs w);
     stdout := stdout w ++
       ["Reading " +:+ path_str input_path +:+ "...";
        "Converting object_type_schemas...";
        progress_line object_fields " object types" obj_key d;
        "Converting relationship_type_schemas...";
        progress_line relationship_fields " relationship types" rel_key d;
        "Writing " +:+ path_str output_path +:+ "...";
        "✓ Conversion complete"] |}.

(** The summary that [main] prints once [convert_pack] has returned. *)
Definition report (converted : value) : M unit :=
  (print (String "010" "Validation:");;
   nm <- lift (py_getitem converted "name");;
   print ("  Name: " +:+ format_value nm);;
   version <- lift (py_getitem converted "version");;
   print ("  Version: " +:+ format_value version);;
   n <- lift (len_field converted "object_type_schemas");;
   print ("  Object types: " +:+ pretty n);;
   n <- lift (len_field converted "relationship_type_schemas");;
   print ("  Relationship types: " +:+ pretty n))%io.

(** The two paths of [main] for an [argv] with an input path. *)
Definition input_path_of (argv : list string) : Path := path_of (nth 1 argv "").

Definition output_path_of (argv : list string) : Path :=
  if (2 <? length argv)%nat then path_of (nth 2 argv "")
  else default_output_path (input_path_of argv).

End Outcome.

(** ** A small runtime and documents for the examples

    [demo_dumps] prints a value compactly and [demo_loads] reads back the
    documents of [demo_docs]; they stand in for the [json] module where an
    example needs a concrete one. *)

Definition quoted (s : string) : string := String "034" (s +:+ String "034" "").

Fixpoint demo_dumps (v : value) : string :=
  match v with
  | VNone => "null"
  | VBool b => if b then "true" else "false"
  | VInt n => pretty n
  | VFloat _ => "0.0"
  | VStr s => quoted s
  | VList l => "[" +:+ join "," (map demo_dumps l) +:+ "]"
  | VDict d =>
      "{" +:+ join "," (map (fun '(k, x) => quoted k +:+ ":" +:+ demo_dumps x) d) +:+ "}"
  end.

Definition person_doc : dict :=
  [("name", VStr "P"); ("version", VStr "1");
   ("object_type_schemas",
     VDict [("Person", VDict [("label", VStr "Person");
                              ("properties", VDict [("age", VStr "number")])])]);
   ("relationship_type_schemas",
     VDict [("KNOWS", VDict [("sourceTypes", VList [VStr "Person"]);
                             ("targetTypes", VList [VStr "Person"])])])].

Definition current_doc : dict :=
  [("name", VStr "P"); ("version", VStr "1");
   ("object_type_schemas", VList [VDict [("name", VStr "Person")]]);
   ("relationship_type_schemas", VList [])].

Definition nameless_doc : dict :=
  [("version", VStr "1"); ("object_type_schemas", VDict [])].

Definition odd_doc : dict :=
  [("name", VStr "P"); ("version", VStr "1");
   ("object_type_schemas", VNone);
   ("relationship_type_schemas", VStr "none")].

Definition person_pack : value := VDict person_doc.
Definition current_pack : value := VDict current_doc.
Definition nameless_pack : value := VDict nameless_doc.
Definition odd_pack : value := VDict odd_doc.

Definition demo_docs : list value :=
  [person_pack; current_pack; nameless_pack; odd_pack].

Definition demo_loads (text : string) : option value :=
  List.find (fun v => String.eqb (demo_dumps v) text) demo_docs.

Definition demo_runtime : Runtime :=
  {| json_loads := demo_loads; json_dumps := demo_dumps; py_repr := demo_dumps |}.

Definition demo_fs : gmap string node :=
  {[ "packs" := Dir;
     "packs/person.json" := File (demo_dumps person_pack);
     "packs/current.json" := File (demo_dumps current_pack);
     "packs/nameless.json" := File (demo_dumps nameless_pack);
     "packs/odd.json" := File (demo_dumps odd_pack) ]}.

Definition demo_world : world := {| fs := demo_fs; stdout := [] |}.

(** More documents: a converted one, one with a malformed entry, one whose
    top level is a list, and a file that is not JSON. *)

Definition broken_doc : dict :=
  [("name", VStr "P");
   ("object_type_schemas", VDict [("Person", VDict [])]);
   ("relationship_type_schemas", VDict [("KNOWS", VNone)])].

Definition more_docs : list value :=
  demo_docs ++ [VDict (converted_pack person_doc); VDict broken_doc; VList []].



Definition more_fs : gmap string node :=
  <["packs/broken.json" := File (demo_dumps (VDict broken_doc))]>
    (<["packs/list.json" := File (demo_dumps (VList []))]>
       (<["packs/bad.json" := File "{"]> demo_fs)).


(** * The script in an environment that can fail

    The embedding above takes the environment at its best: [print] writes
    every line, [Path.exists] answers, [json.load] fails on malformed
    text only, and a file is written in one step.  Module [Env] embeds
    [convert_pack] and [main] again over a host whose operations can all
    raise: each call that leaves the program is a field of [Host], and the
    host decides its outcome.  The conversion functions are the ones
    above. *)

Declare Scope env_scope.
Delimit Scope env_scope with env.

Module Env.

(** The calls of the script into its environment.
    - [path_exists d p]: [p.exists()], which answers or raises the
      [OSError] that [os.stat] gave and [exists] does not swallow;
    - [read_file d p]: [open(p, 'r')] and the bytes of the file;
    - [json_load text]: [json.load(f)] on those bytes, decoding included;
    - [open_write d p]: [open(p, 'w')], which creates or truncates;
    - [dump_file d p v]: [json.dump(v, f, indent=2)] and the close of the
      file opened at [p]: the disk it leaves and the exception, if any,
      that interrupted it;
    - [stdout_write printed line]: [print(line)] after the lines
      [printed]: [None] when the call returns, the exception it raises
      otherwise ([stdout] below holds the lines of the calls that
      returned);
    - [str_of v]: [str(v)] for a value that is not a string. *)
Class Host : Type := {
  disk : Type;
  path_exists : disk -> Path -> res bool;
  read_file : disk -> Path -> res string;
  json_load : string -> res value;
  open_write : disk -> Path -> res disk;
  dump_file : disk -> Path -> value -> disk * option exn;
  stdout_write : list string -> string -> option exn;
  str_of : value -> string
}.

Section Script.

Context `{Host}.

Record world : Type := { files : disk; stdout : list string }.

Definition M (A : Type) : Type := world -> res A * world.

Definition ret {A} (a : A) : M A := fun w => (Ok a, w).
Definition raise {A} (e : exn) : M A := fun w => (Raise e, w).
Definition lift {A} (r : res A) : M A := fun w => (r, w).

Definition bind {A B} (m : M A) (k : A -> M B) : M B :=
  fun w =>
    match m w with
    | (Ok a, w') => k a w'
    | (Raise e, w') => (Raise e, w')
    end.

Notation "x <- e ;; k" := (bind e (fun x => k))
  (at level 100, e at next level, right associativity) : env_scope.
Notation "e ;; k" := (bind e (fun _ => k))
  (at level 100, right associativity) : env_scope.

Definition log (w : world) (line : string) : world :=
  {| files := files w; stdout := stdout w ++ [line] |}.

Definition print (line : string) : M unit :=
  fun w =>
    match stdout_write (stdout w) line with
    | None => (Ok tt, log w line)
    | Some e => (Raise e, w)
    end.

(** [p.exists()] *)
Definition exists_ (p : Path) : M bool :=
  fun w => (path_exists (files w) p, w).

(** [with open(p, 'r') as f: json.load(f)] *)
Definition load (p : Path) : M value :=
  fun w =>
    match read_file (files w) p with
    | Ok text => (json_load text, w)
    | Raise e => (Raise e, w)
    end.

(** [with open(p, 'w') as f: json.dump(v, f, indent=2)] *)
Definition dump (p : Path) (v : value) : M unit :=
  fun w =>
    match open_write (files w) p with
    | Ok opened =>
        match dump_file opened p v with
        | (d, None) => (Ok tt, {| files := d; stdout := stdout w |})
        | (d, Some e) => (Raise e, {| files := d; stdout := stdout w |})
        end
    | Raise e => (Raise e, w)
    end.

(** [f"{v}"] *)
Definition format_value (v : value) : string :=
  match v with
  | VStr s => s
  | _ => str_of v
  end.

(** [len(pack[k])] *)
Definition len_field (pack : value) (k : string) : res nat :=
  (x <- py_getitem pack k;; py_len x)%res.

Local Open Scope env_scope.

Definition convert_pack (input_path output_path : Path) : M value :=
  print ("Reading " +:+ path_str input_path +:+ "...");;
  pack <- load input_path;;
  print "Converting object_type_schemas...";;
  old_obj_schemas <- lift (py_get pack "object_type_schemas" (VDict []));;
  pack <- (if is_dict old_obj_schemas then
             new_schemas <- lift (convert_object_schemas old_obj_schemas);;
             pack <- lift (py_setitem pack "object_type_schemas" (VList new_schemas));;
             n <- lift (len_field pack "object_type_schemas");;
             print ("  Converted " +:+ pretty n +:+ " object types");;
             ret pack
           else
             print "  Already in array format, skipping";;
             ret pack);;
  print "Converting relationship_type_schemas...";;
  old_rel_schemas <- lift (py_get pack "relationship_type_schemas" (VDict []));;
  pack <- (if is_dict old_rel_schemas then
             new_schemas <- lift (convert_relationship_schemas old_rel_schemas);;
             pack <- lift (py_setitem pack "relationship_type_schemas" (VList new_schemas));;
             n <- lift (len_field pack "relationship_type_schemas");;
             print ("  Converted " +:+ pretty n +:+ " relationship types");;
             ret pack
           else
             print "  Already in array format, skipping";;
             ret pack);;
  print ("Writing " +:+ path_str output_path +:+ "...");;
  dump output_path pack;;
  print "✓ Conversion complete";;
  ret pack.

Definition main (argv : list string) : M unit :=
  if (length argv <? 2)%nat then
    print "Usage: convert-pack-format.py <input.json> [output.json]";;
    raise (SystemExit 1)
  else
    let input_path := path_of (nth 1 argv "") in
    let output_path :=
      if (2 <? length argv)%nat then path_of (nth 2 argv "")
      else default_output_path input_path in
    found <- exists_ input_path;;
    if negb found then
      print ("Error: " +:+ path_str input_path +:+ " not found");;
      raise (SystemExit 1)
    else
      converted <- convert_pack input_path output_path;;
      print (String "010" "Validation:");;
      nm <- lift (py_getitem converted "name");;
      print ("  Name: " +:+ format_value nm);;
      version <- lift (py_getitem converted "version");;
      print ("  Version: " +:+ format_value version);;
      n <- lift (len_field converted "object_type_schemas");;
      print ("  Object types: " +:+ pretty n);;
      n <- lift (len_field converted "relationship_type_schemas");;
      print ("  Relationship types: " +:+ pretty n).

(** Whether [print] writes each of [lines], one after the other, after
    the lines [printed]. *)
Fixpoint printable (printed lines : list string) : bool :=
  match lines with
  | [] => true
  | line :: lines' =>
      match stdout_write printed line with
      | None => printable (printed ++ [line]) lines'
      | Some _ => false
      end
  end.

(** The lines [convert_pack] prints before it opens the output. *)
Definition progress (input_path output_path : Path) (d : dict) : list string :=
  ["Reading " +:+ path_str input_path +:+ "...";
   "Converting object_type_schemas...";
   progress_line object_fields " object types" obj_key d;
   "Converting relationship_type_schemas...";
   progress_line relationship_fields " relationship types" rel_key d;
   "Writing " +:+ path_str output_path +:+ "..."].

(** The lines of the summary of [main] up to the first field that the
    document [d] lacks. *)
Definition summary_start (d : dict) : list string :=
  String "010" "Validation:"
  :: match Dict.get "name" d with
     | Some nm =>
         ("  Name: " +:+ format_value nm)
         :: match Dict.get "version" d with
            | Some version => ["  Version: " +:+ format_value version]
            | None => []
            end
     | None => []
     end.

(** The summary that [main] prints once [convert_pack] has returned. *)
Definition report (converted : value) : M unit :=
  print (String "010" "Validation:");;
  nm <- lift (py_getitem converted "name");;
  print ("  Name: " +:+ format_value nm);;
  version <- lift (py_getitem converted "version");;
  print ("  Version: " +:+ format_value version);;
  n <- lift (len_field converted "object_type_schemas");;
  print ("  Object types: " +:+ pretty n);;
  n <- lift (len_field converted "relationship_type_schemas");;
  print ("  Relationship types: " +:+ pretty n).

End Script.

End Env.

Notation "x <- e ;; k" := (Env.bind e (fun x => k))
  (at level 100, e at next level, right associativity) : env_scope.
Notation "e ;; k" := (Env.bind e (fun _ => k))
  (at level 100, right associativity) : env_scope.

(** ** The host without failures

    Over [reliable_host] the script of [Env] is the script of the first
    embedding: [print] writes every line, the disk is the map from path
    strings, and [json.load] fails on malformed text only. *)

Definition reliable_host `{Runtime} : Env.Host :=
  {| Env.disk := gmap string node;
     Env.path_exists := fun d p => Ok (bool_decide (is_Some (lookup_path d p)));
     Env.read_file := fun d p =>
       match lookup_path d p with
       | Some (File content) => Ok content
       | Some Dir => Raise IsADirectoryError
       | None => Raise FileNotFoundError
       end;
     Env.json_load := json_load;
     Env.open_write := fun d p =>
       match open_w d p with
       | Ok _ => Ok d
       | Raise e => Raise e
       end;
     Env.dump_file := fun d p v => (<[path_str p := File (json_dumps v)]> d, None);
     Env.stdout_write := fun _ _ => None;
     Env.str_of := py_repr |}.

Definition hosted `{Runtime} (w : world) : @Env.world reliable_host :=
  @Env.Build_world reliable_host (fs w) (stdout w).

(** [m'] does over [reliable_host] what [m] does. *)
Definition same_run `{Runtime} {A} (m : M A) (m' : @Env.M reliable_host A) : Prop :=
  forall w, m' (hosted w) = (let '(r, w') := m w in (r, hosted w')).

(** ** A host for the examples

    A disk as above, on which a path with a name of more than 255 bytes
    makes every call fail with [OSError] 36 (the name is too long), and a
    standard output that encodes UTF-8 strictly: a line that holds a
    surrogate code point, bytes [ED A0..BF xx] here, makes [print] raise
    [UnicodeEncodeError]. *)

Definition name_too_long (p : Path) : bool :=
  existsb (fun n => (255 <? String.length n)%nat) (names p).

Fixpoint has_surrogate (s : string) : bool :=
  match s with
  | EmptyString => false
  | String a s' =>
      match s' with
      | String b _ =>
          (Ascii.N_of_ascii a =? 237)%N && (160 <=? Ascii.N_of_ascii b)%N
      | EmptyString => false
      end
      || has_surrogate s'
  end.

(** The string of the code point U+D800, as [json.load] gives it for the
    escape [\ud800]. *)
Definition lone_surrogate : string := String "237" (String "160" (String "128" "")).

(** The string of the code point U+DCFF, as [sys.argv] holds the byte
    [FF] of a command line that is not UTF-8. *)
Definition escaped_byte : string := String "237" (String "179" (String "191" "")).

Fixpoint replicate_char (a : Ascii.ascii) (n : nat) : string :=
  match n with
  | O => EmptyString
  | S n' => String a (replicate_char a n')
  end.

Definition surrogate_doc : dict :=
  [("name", VStr lone_surrogate); ("object_type_schemas", VDict [])].

Definition strict_docs : list value := more_docs ++ [VDict surrogate_doc].

Definition strict_host : Env.Host :=
  {| Env.disk := gmap string node;
     Env.path_exists := fun d p =>
       if name_too_long p then Raise (OSError 36)
       else Ok (bool_decide (is_Some (lookup_path d p)));
     Env.read_file := fun d p =>
       if name_too_long p then Raise (OSError 36)
       else match lookup_path d p with
            | Some (File content) => Ok content
            | Some Dir => Raise IsADirectoryError
            | None => Raise FileNotFoundError
            end;
     Env.json_load := fun text =>
       match List.find (fun v => String.eqb (demo_dumps v) text) strict_docs with
       | Some v => Ok v
       | None => Raise JSONDecodeError
       end;
     Env.open_write := fun d p =>
       if name_too_long p then Raise (OSError 36)
       else match open_w d p with
            | Ok _ => Ok (<[path_str p := File ""]> d)
            | Raise e => Raise e
            end;
     Env.dump_file := fun d p v => (<[path_str p := File (demo_dumps v)]> d, None);
     Env.stdout_write := fun _ line =>
       if has_surrogate line then Some UnicodeEncodeError else None;
     Env.str_of := demo_dumps |}.

Definition strict_fs : gmap string node :=
  <["packs/surrogate.json" := File (demo_dumps (VDict surrogate_doc))]> more_fs.

Definition strict_world : @Env.world strict_host :=
  @Env.Build_world strict_host strict_fs [].

(** * Examples *)

Example scenario_objects :
  convert_object_schemas
    (VDict [("Person", VDict [("label", VStr "Person");
                              ("properties", VDict [("age", VStr "number")])])])
  = Ok [VDict [("name", VStr "Person"); ("label", VStr "Person");
               ("properties", VDict [("age", VStr "number")])]].
Proof. reflexivity. Qed.

Example scenario_relationships :
  convert_relationship_schemas
    (VDict [("KNOWS", VDict [("sourceTypes", VList [VStr "Person"]);
                             ("targetTypes", VList [VStr "Person"])])])
  = Ok [VDict [("name", VStr "KNOWS"); ("sourceTypes", VList [VStr "Person"]);
               ("targetTypes", VList [VStr "Person"])]].
Proof. reflexivity. Qed.

Example path_of_ex :
  path_of "packs//./demo.pack.json" = {| anchor := ""; names := ["packs"; "demo.pack.json"] |}
  /\ path_str (path_of "/srv/packs/") = "/srv/packs"
  /\ stem (path_of "packs/demo.pack.json") = "demo.pack"
  /\ suffix (path_of "packs/demo.pack.json") = ".json"
  /\ suffix (path_of ".hidden") = ""
  /\ stem (path_of "trailing.") = "trailing."
  /\ path_str (parent (path_of "demo.json")) = "."
  /\ path_str (joinpath (path_of "") "demo.json") = "demo.json".
Proof. repeat split; reflexivity. Qed.

(** The scenario of the spec, run from the command line. *)
Example scenario_run :
  let '(r, w) := @main demo_runtime ["convert"; "packs/person.json"] demo_world in
  r = Ok tt
  /\ stdout w
     = ["Reading packs/person.json...";
        "Converting object_type_schemas...";
        "  Converted 1 object types";
        "Converting relationship_type_schemas...";
        "  Converted 1 relationship types";
        "Writing packs/person-converted.json...";
        "✓ Conversion complete";
        String "010" "Validation:";
        "  Name: P";
        "  Version: 1";
        "  Object types: 1";
        "  Relationship types: 1"]
  /\ fs w !! "packs/person.json" = Some (File (demo_dumps person_pack))
  /\ fs w !! "packs/person-converted.json"
     = Some (File (demo_dumps (VDict (converted_pack person_doc)))).
Proof. vm_compute. repeat split. Qed.

(** * Properties *)

(** ** Dictionaries *)

Lemma get_set_same k v d : Dict.get k (Dict.set k v d) = Some v.
Proof.
  induction d as [|[k' v'] d IH]; simpl.
  - by rewrite String.eqb_refl.
  - destruct (String.eqb k k') eqn:E; simpl; rewrite ?E, ?String.eqb_refl; done.
Qed.

Lemma get_set_other k k' v d : k <> k' -> Dict.get k (Dict.set k' v d) = Dict.get k d.
Proof.
  intros Hne. induction d as [|[k0 v0] d IH]; simpl.
  - by apply String.eqb_neq in Hne as ->.
  - destruct (String.eqb k' k0) eqn:E; simpl.
    + apply String.eqb_eq in E as <-. by apply String.eqb_neq in Hne as ->.
    + by rewrite IH.
Qed.

Lemma get_select fields s f :
  Dict.get f (select fields s)
  = if existsb (String.eqb f) fields then Dict.get f s else None.
Proof.
  induction fields as [|k fields IH]; simpl; [done|].
  destruct (String.eqb f k) eqn:E; simpl.
  - apply String.eqb_eq in E as ->.
    destruct (Dict.get k s) eqn:G; simpl.
    + by rewrite String.eqb_refl.
    + rewrite IH, ?G. by destruct (existsb _ _).
  - destruct (Dict.get k s); simpl; rewrite ?E; apply IH.
Qed.

Lemma keys_select fields s :
  Dict.keys (select fields s) = List.filter (fun k => Dict.mem k s) fields.
Proof.
  induction fields as [|k fields IH]; simpl; [done|].
  unfold Dict.mem at 1. destruct (Dict.get k s); simpl; by rewrite IH.
Qed.

(** ** One entry *)

Ltac case_get s k :=
  let x := fresh "x" in destruct (Dict.get k s) as [x|] eqn:?.

Lemma object_entry_result key schema :
  object_entry key schema = entry_result object_fields key schema.
Proof.
  unfold object_entry, entry_result, copy_if_in.
  destruct schema as [| | | |s|l|s]; try reflexivity; simpl.
  - destruct (str_contains "label" s); [done|].
    destruct (str_contains "description" s); [done|].
    by destruct (str_contains "properties" s).
  - destruct (existsb (eq_str "label") l); [done|].
    destruct (existsb (eq_str "description") l); [done|].
    by destruct (existsb (eq_str "properties") l).
  - unfold Dict.mem.
    case_get s "label"; case_get s "description"; case_get s "properties";
      reflexivity.
Qed.

Lemma relationship_entry_result key schema :
  relationship_entry key schema = entry_result relationship_fields key schema.
Proof.
  unfold relationship_entry, entry_result, copy_if_in.
  destruct schema as [| | | |s|l|s]; try reflexivity; simpl.
  - destruct (str_contains "label" s); [done|].
    destruct (str_contains "description" s); [done|].
    destruct (str_contains "sourceTypes" s); [done|].
    by destruct (str_contains "targetTypes" s).
  - destruct (existsb (eq_str "label") l); [done|].
    destruct (existsb (eq_str "description") l); [done|].
    destruct (existsb (eq_str "sourceTypes") l); [done|].
    by destruct (existsb (eq_str "targetTypes") l).
  - unfold Dict.mem.
    case_get s "label"; case_get s "description";
      case_get s "sourceTypes"; case_get s "targetTypes"; reflexivity.
Qed.

(** ** The loop *)

Section Loop.

Variable fields : list string.
Variable body : string -> value -> res dict.
Hypothesis body_result : forall key schema, body key schema = entry_result fields key schema.

Lemma for_items_ok items result :
  forallb (fun e => negb (rejects fields e.2)) items = true ->
  for_items body items result = Ok (result ++ converted_entries fields items)%list.
Proof.
  revert result. induction items as [|[key schema] items IH]; intros result Hall; simpl.
  - by rewrite app_nil_r.
  - simpl in Hall. apply andb_true_iff in Hall as [Hhd Htl].
    rewrite body_result. unfold entry_result.
    apply negb_true_iff in Hhd. rewrite Hhd. simpl.
    rewrite IH by done. by rewrite <- app_assoc.
Qed.

Lemma for_items_raise items result :
  forallb (fun e => negb (rejects fields e.2)) items = false ->
  for_items body items result = Raise TypeError.
Proof.
  revert result. induction items as [|[key schema] items IH]; intros result Hex; simpl.
  - discriminate.
  - simpl in Hex. rewrite body_result. unfold entry_result.
    destruct (rejects fields schema); simpl; [done|].
    simpl in Hex. by apply IH.
Qed.

End Loop.

Lemma convert_object_schemas_dict m :
  convert_object_schemas (VDict m)
  = if forallb (fun e => negb (rejects object_fields e.2)) m
    then Ok (converted_entries object_fields m) else Raise TypeError.
Proof.
  unfold convert_object_schemas. destruct m as [|e m]; [done|].
  change (negb (truthy (VDict (e :: m)))) with false. cbv iota. simpl py_items.
  cbv beta iota delta [rbind].
  destruct (forallb _ (e :: m)) eqn:E.
  - by rewrite (for_items_ok object_fields _ object_entry_result).
  - by rewrite (for_items_raise object_fields _ object_entry_result).
Qed.

Lemma convert_relationship_schemas_dict m :
  convert_relationship_schemas (VDict m)
  = if forallb (fun e => negb (rejects relationship_fields e.2)) m
    then Ok (converted_entries relationship_fields m) else Raise TypeError.
Proof.
  unfold convert_relationship_schemas. destruct m as [|e m]; [done|].
  change (negb (truthy (VDict (e :: m)))) with false. cbv iota. simpl py_items.
  cbv beta iota delta [rbind].
  destruct (forallb _ (e :: m)) eqn:E.
  - by rewrite (for_items_ok relationship_fields _ relationship_entry_result).
  - by rewrite (for_items_raise relationship_fields _ relationship_entry_result).
Qed.

Lemma dict_valued_accepted fields (m : dict) :
  Forall (fun e => is_dict e.2 = true) m ->
  forallb (fun e => negb (rejects fields e.2)) m = true.
Proof.
  intros Hall. apply forallb_forall. intros e Hin.
  rewrite Forall_forall in Hall. apply list_elem_of_In, Hall in Hin.
  by destruct (e.2).
Qed.

Lemma converted_entries_names fields m :
  map (fun out => py_getitem out "name") (converted_entries fields m)
  = map (fun key => Ok (VStr key)) (Dict.keys m).
Proof.
  unfold converted_entries, Dict.keys. rewrite !map_map. done.
Qed.

Lemma existsb_eqb_In f (fields : list string) :
  existsb (String.eqb f) fields = true <-> In f fields.
Proof.
  rewrite existsb_exists. split.
  - intros (x & Hin & Heq). by apply String.eqb_eq in Heq as ->.
  - intros Hin. exists f. by rewrite String.eqb_refl.
Qed.

Lemma converted_entry_exact fields key s :
  ~ In "name" fields ->
  carries_exactly fields key (VDict s) (VDict (("name", VStr key) :: select fields s)).
Proof.
  intros Hname. exists s, (("name", VStr key) :: select fields s).
  repeat split.
  - simpl. by rewrite keys_select.
  - intros f Hin. simpl.
    destruct (String.eqb f "name") eqn:E.
    + apply String.eqb_eq in E as ->. done.
    + rewrite get_select. by apply existsb_eqb_In in Hin as ->.
  - intros f Hne Hnin. simpl.
    apply String.eqb_neq in Hne as ->. rewrite get_select.
    destruct (existsb (String.eqb f) fields) eqn:E; [|done].
    by apply existsb_eqb_In in E.
Qed.

Lemma converted_entries_exact fields (m : dict) :
  ~ In "name" fields ->
  Forall (fun e => is_dict e.2 = true) m ->
  Forall2 (fun e out => carries_exactly fields e.1 e.2 out) m (converted_entries fields m).
Proof.
  intros Hname. induction 1 as [|[key schema] m Hd _ IH]; simpl; constructor; [|done].
  simpl in *. destruct schema; try discriminate. by apply converted_entry_exact.
Qed.

Lemma object_fields_no_name : ~ In "name" object_fields.
Proof. unfold object_fields. simpl. intuition discriminate. Qed.

Lemma relationship_fields_no_name : ~ In "name" relationship_fields.
Proof. unfold relationship_fields. simpl. intuition discriminate. Qed.

(** ** The claims about the two conversion functions *)

(** C1. For a legacy mapping [M] whose values are schema mappings,
    [convert_object_schemas] returns a list with one element per key of
    [M]; the ["name"] of the i-th element is the i-th key of [M], so the
    elements come in the iteration order of [M]. *)
Theorem convert_object_schemas_key_names (M : dict) :
  Forall (fun e => is_dict e.2 = true) M ->
  exists r,
    convert_object_schemas (VDict M) = Ok r
    /\ length r = length (Dict.keys M)
    /\ map (fun out => py_getitem out "name") r
       = map (fun key => Ok (VStr key)) (Dict.keys M).
Proof.
  intros Hd. exists (converted_entries object_fields M).
  rewrite convert_object_schemas_dict, dict_valued_accepted by done.
  split; [done|]. split.
  - unfold converted_entries, Dict.keys. by rewrite !length_map.
  - apply converted_entries_names.
Qed.

Lemma convert_object_schemas_key_names_witness :
  exists r,
    convert_object_schemas
      (VDict [("Person", VDict [("label", VStr "Person")]); ("City", VDict [])]) = Ok r
    /\ length r = 2
    /\ map (fun out => py_getitem out "name") r = [Ok (VStr "Person"); Ok (VStr "City")].
Proof.
  apply (convert_object_schemas_key_names
           [("Person", VDict [("label", VStr "Person")]); ("City", VDict [])]).
  repeat constructor.
Defined.

(** C2. For a legacy mapping whose values are schema mappings, each
    converted element holds ["name"] and exactly those allow-listed fields
    that its source entry has, each with the value of the source:
    [label], [description], [properties] for object schemas and [label],
    [description], [sourceTypes], [targetTypes] for relationship schemas,
    which never get [properties]. *)
Theorem converted_fields_allow_list (M : dict) :
  Forall (fun e => is_dict e.2 = true) M ->
  (exists r,
     convert_object_schemas (VDict M) = Ok r
     /\ Forall2 (fun e out => carries_exactly object_fields e.1 e.2 out) M r)
  /\ (exists r,
        convert_relationship_schemas (VDict M) = Ok r
        /\ Forall2 (fun e out =>
                      carries_exactly relationship_fields e.1 e.2 out
                      /\ py_in "properties" out = Ok false) M r).
Proof.
  intros Hd. split.
  - exists (converted_entries object_fields M).
    rewrite convert_object_schemas_dict, dict_valued_accepted by done.
    split; [done|]. by apply converted_entries_exact, Hd; apply object_fields_no_name.
  - exists (converted_entries relationship_fields M).
    rewrite convert_relationship_schemas_dict, dict_valued_accepted by done.
    split; [done|].
    pose proof (converted_entries_exact relationship_fields M
                  relationship_fields_no_name Hd) as Hex.
    eapply Forall2_impl; [exact Hex|].
    intros e out Hc. split; [done|].
    destruct Hc as (s & o & _ & -> & _ & _ & _ & Hnone).
    simpl. unfold Dict.mem. rewrite Hnone; [done|discriminate|].
    unfold relationship_fields. simpl. intuition discriminate.
Qed.

Lemma converted_fields_allow_list_witness :
  (exists r,
     convert_object_schemas
       (VDict [("Person", VDict [("label", VStr "Person"); ("icon", VStr "user");
                                 ("properties", VDict [])])]) = Ok r
     /\ Forall2 (fun e out => carries_exactly object_fields e.1 e.2 out)
          [("Person", VDict [("label", VStr "Person"); ("icon", VStr "user");
                             ("properties", VDict [])])] r)
  /\ (exists r,
        convert_relationship_schemas
          (VDict [("Person", VDict [("label", VStr "Person"); ("icon", VStr "user");
                                    ("properties", VDict [])])]) = Ok r
        /\ Forall2 (fun e out =>
                      carries_exactly relationship_fields e.1 e.2 out
                      /\ py_in "properties" out = Ok false)
             [("Person", VDict [("label", VStr "Person"); ("icon", VStr "user");
                                ("properties", VDict [])])] r).
Proof.
  apply (converted_fields_allow_list
           [("Person", VDict [("label", VStr "Person"); ("icon", VStr "user");
                              ("properties", VDict [])])]).
  repeat constructor.
Defined.

Lemma converted_entries_bare fields (m : dict) :
  Forall2 (fun e out => is_dict e.2 = false -> out = VDict [("name", VStr e.1)])
    m (converted_entries fields m).
Proof.
  induction m as [|[key schema] m IH]; simpl; constructor; [|done].
  simpl. by destruct schema.
Qed.

Lemma rejecting_entry fields (m : dict) :
  Exists (fun e => rejects fields e.2 = true) m ->
  forallb (fun e => negb (rejects fields e.2)) m = false.
Proof.
  intros Hex. apply not_true_is_false. intros Hall.
  rewrite forallb_forall in Hall. apply Exists_exists in Hex as (e & Hin & Hrej).
  apply list_elem_of_In, Hall in Hin. by rewrite Hrej in Hin.
Qed.

Lemma accepting_entries fields (m : dict) :
  Forall (fun e => rejects fields e.2 = false) m ->
  forallb (fun e => negb (rejects fields e.2)) m = true.
Proof.
  intros Hall. apply forallb_forall. intros e Hin.
  rewrite Forall_forall in Hall. apply list_elem_of_In, Hall in Hin. by rewrite Hin.
Qed.

(** C6, as the spec states it, fails: an entry whose value is a list or a
    string that holds none of the allow-listed names is converted, without
    any failure, to an element that carries only ["name"]. *)
Lemma non_mapping_entry_converted :
  convert_object_schemas (VDict [("Person", VList []); ("City", VStr "a town")])
  = Ok [VDict [("name", VStr "Person")]; VDict [("name", VStr "City")]]
  /\ convert_relationship_schemas (VDict [("KNOWS", VList [VStr "Person"])])
     = Ok [VDict [("name", VStr "KNOWS")]]
  /\ ~ (exists e,
          convert_object_schemas (VDict [("Person", VList []); ("City", VStr "a town")])
          = Raise e /\ MalformedSchemaEntry e).
Proof.
  split; [reflexivity|]. split; [reflexivity|].
  intros (e & Heq & _). discriminate Heq.
Qed.

(** C6, amended. An entry whose value is [None], a boolean or a number, a
    list that has one of the allow-listed names as an element, or a string
    that has one as a substring ([rejects]) makes the conversion raise
    [TypeError], the failure the spec calls MalformedSchemaEntry.  When no
    entry is of that kind the conversion returns, and an entry whose value
    is some other list or string yields an element that carries only
    ["name"]. *)
Theorem malformed_entry_raises (M : dict) :
  (Exists (fun e => rejects object_fields e.2 = true) M ->
   exists e, convert_object_schemas (VDict M) = Raise e /\ MalformedSchemaEntry e)
  /\ (Exists (fun e => rejects relationship_fields e.2 = true) M ->
      exists e, convert_relationship_schemas (VDict M) = Raise e /\ MalformedSchemaEntry e)
  /\ (Forall (fun e => rejects object_fields e.2 = false) M ->
      exists r, convert_object_schemas (VDict M) = Ok r
        /\ Forall2 (fun e out => is_dict e.2 = false -> out = VDict [("name", VStr e.1)]) M r)
  /\ (Forall (fun e => rejects relationship_fields e.2 = false) M ->
      exists r, convert_relationship_schemas (VDict M) = Ok r
        /\ Forall2 (fun e out => is_dict e.2 = false -> out = VDict [("name", VStr e.1)]) M r).
Proof.
  repeat split.
  - intros Hex. exists TypeError.
    by rewrite convert_object_schemas_dict, rejecting_entry.
  - intros Hex. exists TypeError.
    by rewrite convert_relationship_schemas_dict, rejecting_entry.
  - intros Hall. exists (converted_entries object_fields M).
    rewrite convert_object_schemas_dict, accepting_entries by done.
    split; [done|]. apply converted_entries_bare.
  - intros Hall. exists (converted_entries relationship_fields M).
    rewrite convert_relationship_schemas_dict, accepting_entries by done.
    split; [done|]. apply converted_entries_bare.
Qed.

Lemma malformed_entry_raises_witness :
  (exists e, convert_object_schemas
               (VDict [("Person", VDict []); ("City", VNone)]) = Raise e
             /\ MalformedSchemaEntry e)
  /\ (exists e, convert_relationship_schemas
                  (VDict [("KNOWS", VStr "no targetTypes")]) = Raise e
                /\ MalformedSchemaEntry e)
  /\ (exists r, convert_object_schemas (VDict [("Person", VList [VInt 1])]) = Ok r
        /\ Forall2 (fun e out => is_dict e.2 = false -> out = VDict [("name", VStr e.1)])
             [("Person", VList [VInt 1])] r)
  /\ (exists r, convert_relationship_schemas (VDict [("KNOWS", VStr "none")]) = Ok r
        /\ Forall2 (fun e out => is_dict e.2 = false -> out = VDict [("name", VStr e.1)])
             [("KNOWS", VStr "none")] r).
Proof.
  split; [|split; [|split]].
  - apply (proj1 (malformed_entry_raises [("Person", VDict []); ("City", VNone)])).
    apply Exists_cons_tl, Exists_cons_hd. reflexivity.
  - apply (proj1 (proj2 (malformed_entry_raises [("KNOWS", VStr "no targetTypes")]))).
    apply Exists_cons_hd. reflexivity.
  - apply (proj1 (proj2 (proj2 (malformed_entry_raises [("Person", VList [VInt 1])])))).
    repeat constructor.
  - apply (proj2 (proj2 (proj2 (malformed_entry_raises [("KNOWS", VStr "none")])))).
    repeat constructor.
Defined.

(** ** Paths *)

Lemma split_slash_free s : Forall (fun x => slash_free x = true) (split "/" s).
Proof.
  induction s as [|a s IH]; simpl.
  - by repeat constructor.
  - destruct (Ascii.eqb a "/") eqn:E.
    + by constructor.
    + destruct (split "/" s) as [|w ws]; inversion IH; subst;
        constructor; simpl; rewrite ?E; done.
Qed.

Lemma split_of_slash_free s : slash_free s = true -> split "/" s = [s].
Proof.
  induction s as [|a s IH]; simpl; [done|].
  intros [Ha Hs]%andb_true_iff. apply negb_true_iff in Ha. rewrite Ha.
  by rewrite IH.
Qed.

Lemma slash_free_append s t :
  slash_free (s +:+ t) = slash_free s && slash_free t.
Proof.
  induction s as [|a s IH]; simpl; [done|]. by rewrite IH, andb_assoc.
Qed.

Lemma slash_free_substring n m s :
  slash_free s = true -> slash_free (String.substring n m s) = true.
Proof.
  revert n m. induction s as [|a s IH]; intros n m Hs.
  - by destruct n, m.
  - simpl in Hs. apply andb_true_iff in Hs as [Ha Hs].
    destruct n, m; simpl; rewrite ?Ha; simpl; auto.
Qed.

Lemma last_default_or_in {A} (l : list A) d : List.last l d = d \/ In (List.last l d) l.
Proof.
  induction l as [|x l IH]; [by left|].
  destruct l as [|y l]; [right; by left|].
  right. right. destruct IH as [IH|IH]; [|done].
  change (List.last (x :: y :: l) d) with (List.last (y :: l) d).
  clear IH. revert y. induction l as [|z l IHl]; intros y; [by left|].
  right. apply IHl.
Qed.

Lemma name_slash_free arg : slash_free (name (path_of arg)) = true.
Proof.
  unfold name, path_of. simpl.
  destruct (last_default_or_in (List.filter is_name (split "/" arg)) "") as [->|Hin];
    [done|].
  apply filter_In in Hin as [Hin _].
  pose proof (split_slash_free arg) as Hall. rewrite Forall_forall in Hall.
  by apply Hall, list_elem_of_In.
Qed.

Lemma stem_slash_free arg : slash_free (stem (path_of arg)) = true.
Proof.
  unfold stem. pose proof (name_slash_free arg) as Hn.
  destruct (suffix_index _); [|done]. by apply slash_free_substring.
Qed.

Lemma slash_free_no_anchor t : slash_free t = true -> is_prefix "/" t = false.
Proof.
  destruct t as [|a t]; [done|]. cbn [is_prefix slash_free].
  intros [Ha _]%andb_true_iff. apply negb_true_iff in Ha.
  by rewrite Ascii.eqb_sym, Ha.
Qed.

Lemma path_of_single t :
  slash_free t = true -> is_name t = true ->
  path_of t = {| anchor := ""; names := [t] |}.
Proof.
  intros Hs Hn. unfold path_of.
  rewrite slash_free_no_anchor, split_of_slash_free by done.
  cbn [List.filter]. by rewrite Hn.
Qed.

Lemma converted_is_name s : is_name (s +:+ "-converted.json") = true.
Proof.
  destruct s as [|a s]; [done|]. unfold is_name.
  change (String a s +:+ "-converted.json") with (String a (s +:+ "-converted.json")).
  cbn [String.eqb]. destruct (Ascii.eqb a "."); [|done].
  by destruct s.
Qed.

(** C8, as the spec states it, fails: the default output keeps the stem
    of the input but its suffix is always [.json]. *)
Lemma default_output_path_not_input_suffix :
  let p := path_of "packs/demo.yaml" in
  path_str (default_output_path p) = "packs/demo-converted.json"
  /\ stem p +:+ "-converted" +:+ suffix p = "demo-converted.yaml"
  /\ name (default_output_path p) <> stem p +:+ "-converted" +:+ suffix p.
Proof. repeat split. discriminate. Qed.

Lemma default_output_path_shape (arg : string) :
  let p := path_of arg in
  default_output_path p
  = {| anchor := anchor (parent p);
       names := names (parent p) ++ [stem p +:+ "-converted.json"] |}.
Proof.
  intros p. unfold default_output_path, joinpath.
  rewrite path_of_single.
  - done.
  - rewrite slash_free_append. unfold p. by rewrite stem_slash_free.
  - apply converted_is_name.
Qed.

(** ** The effects *)

Section Effects.

Context `{Runtime}.

Local Open Scope io_scope.

Lemma bind_print {A} line (k : unit -> M A) w : bind (print line) k w = k tt (log w line).
Proof. reflexivity. Qed.

Lemma bind_lift_ok {A B} (a : A) (k : A -> M B) w : bind (lift (Ok a)) k w = k a w.
Proof. reflexivity. Qed.

Lemma bind_lift_raise {A B} e (k : A -> M B) w : bind (lift (Raise e)) k w = (Raise e, w).
Proof. reflexivity. Qed.

Lemma bind_read_text {A} p text (k : string -> M A) w :
  lookup_path (fs w) p = Some (File text) -> bind (read_text p) k w = k text w.
Proof. intros Hl. unfold bind, read_text. by rewrite Hl. Qed.

Lemma len_field_set d k l :
  len_field (VDict (Dict.set k (VList l) d)) k = Ok (length l).
Proof. unfold len_field. simpl. by rewrite get_set_same. Qed.

(** One block of [convert_pack], followed by the rest of the function. *)
Lemma convert_block {A} conv noun k d (rest : value -> M A) w :
  (old_schemas <- lift (py_get (VDict d) k (VDict []));;
   pack <- (if is_dict old_schemas then
              new_schemas <- lift (conv old_schemas);;
              pack <- lift (py_setitem (VDict d) k (VList new_schemas));;
              n <- lift (len_field pack k);;
              print ("  Converted " +:+ pretty n +:+ noun);;
              ret pack
            else
              print "  Already in array format, skipping";;
              ret (VDict d));;
   rest pack) w
  = match convert_field conv noun k d with
    | Raise e => (Raise e, w)
    | Ok (d', line) => rest (VDict d') (log w line)
    end.
Proof.
  unfold convert_field, default. simpl py_get. rewrite bind_lift_ok.
  destruct (is_dict _); [|reflexivity].
  unfold bind at 1. unfold bind at 1. unfold lift at 1.
  destruct (conv _) as [r|e]; [|reflexivity].
  simpl py_setitem. rewrite bind_lift_ok, len_field_set. reflexivity.
Qed.

Lemma convert_pack_dict input_path output_path text d w :
  lookup_path (fs w) input_path = Some (File text) ->
  json_loads text = Some (VDict d) ->
  convert_pack input_path output_path w
  = convert_pack_outcome input_path output_path d w.
Proof.
  intros Hfile Hdoc. unfold convert_pack, convert_pack_outcome.
  rewrite bind_print, (bind_read_text _ text) by done.
  unfold json_load. rewrite Hdoc, bind_lift_ok, bind_print.
  rewrite convert_block. fold obj_key.
  destruct (convert_field _ _ obj_key d) as [[d1 line1]|e]; [|reflexivity].
  rewrite bind_print, convert_block. fold rel_key.
  destruct (convert_field _ _ rel_key d1) as [[d2 line2]|e]; [|reflexivity].
  rewrite bind_print.
  unfold bind, write_text, print, ret. simpl fs.
  destruct (open_w (fs w) output_path) as [[]|e]; reflexivity.
Qed.

End Effects.

(** ** One collection *)

Lemma convert_field_accepted conv fields noun k d :
  (forall m, conv (VDict m)
             = if forallb (fun e => negb (rejects fields e.2)) m
               then Ok (converted_entries fields m) else Raise TypeError) ->
  accepted fields (Dict.get k d) = true ->
  convert_field conv noun k d = Ok (updated fields k d, progress_line fields noun k d).
Proof.
  intros Hconv Hacc. unfold convert_field, updated, progress_line, new_collection.
  destruct (Dict.get k d) as [old|]; simpl.
  - destruct old; try reflexivity. simpl in Hacc. by rewrite Hconv, Hacc.
  - by rewrite Hconv.
Qed.

Lemma convert_field_rejected conv fields noun k d :
  (forall m, conv (VDict m)
             = if forallb (fun e => negb (rejects fields e.2)) m
               then Ok (converted_entries fields m) else Raise TypeError) ->
  accepted fields (Dict.get k d) = false ->
  convert_field conv noun k d = Raise TypeError.
Proof.
  intros Hconv Hacc. unfold convert_field.
  destruct (Dict.get k d) as [old|]; [|discriminate].
  destruct old; try discriminate. simpl in *. by rewrite Hconv, Hacc.
Qed.

Lemma updated_other fields k k' d :
  k' <> k -> Dict.get k' (updated fields k d) = Dict.get k' d.
Proof.
  intros Hne. unfold updated. destruct (new_collection _ _); [|done].
  by apply get_set_other.
Qed.

Lemma updated_same fields k d :
  Dict.get k (updated fields k d)
  = match new_collection fields (Dict.get k d) with
    | Some r => Some (VList r)
    | None => Dict.get k d
    end.
Proof.
  unfold updated. destruct (new_collection _ _); [|done]. apply get_set_same.
Qed.

Lemma updated_present fields k d : Dict.get k (updated fields k d) <> None.
Proof.
  rewrite updated_same. unfold new_collection.
  destruct (Dict.get k d) as [[]|]; discriminate.
Qed.

Lemma keys_differ : rel_key <> obj_key.
Proof. discriminate. Qed.

Lemma converted_pack_other k d :
  k <> obj_key -> k <> rel_key -> Dict.get k (converted_pack d) = Dict.get k d.
Proof.
  intros Ho Hr. unfold converted_pack. by rewrite !updated_other.
Qed.

Lemma converted_pack_obj d :
  Dict.get obj_key (converted_pack d)
  = match new_collection object_fields (Dict.get obj_key d) with
    | Some r => Some (VList r)
    | None => Dict.get obj_key d
    end.
Proof.
  unfold converted_pack. rewrite updated_other by (intros Heq; discriminate Heq).
  apply updated_same.
Qed.

Lemma converted_pack_rel d :
  Dict.get rel_key (converted_pack d)
  = match new_collection relationship_fields (Dict.get rel_key d) with
    | Some r => Some (VList r)
    | None => Dict.get rel_key d
    end.
Proof.
  unfold converted_pack. rewrite updated_same.
  by rewrite updated_other by apply keys_differ.
Qed.

Section Returns.

Context `{Runtime}.

(** When the input is [convertible], [convert_pack] returns the converted
    document, writes it and prints its seven lines. *)
Lemma convert_pack_returns w input_path output_path d :
  convertible w input_path output_path d ->
  convert_pack input_path output_path w
  = (Ok (VDict (converted_pack d)), converted_world w input_path output_path d).
Proof.
  intros ((text & Hfile & Hdoc) & Hobj & Hrel & Hopen).
  rewrite (convert_pack_dict _ _ text d) by done.
  unfold convert_pack_outcome, converted_world.
  rewrite (convert_field_accepted _ object_fields)
    by (done || apply convert_object_schemas_dict).
  rewrite (convert_field_accepted _ relationship_fields);
    [|apply convert_relationship_schemas_dict
     |by rewrite updated_other by apply keys_differ].
  rewrite Hopen. unfold converted_pack, log. simpl.
  rewrite <- !app_assoc. simpl.
  do 3 f_equal. unfold progress_line.
  by rewrite updated_other by apply keys_differ.
Qed.


(** [convert_pack] returns on no other input. *)
Lemma convert_pack_returns_only w input_path output_path pack w' :
  convert_pack input_path output_path w = (Ok pack, w') ->
  exists d, convertible w input_path output_path d.
Proof.
  intros Hrun.
  destruct (lookup_path (fs w) input_path) as [[text|]|] eqn:Hfile.
  2,3: unfold convert_pack in Hrun; rewrite bind_print in Hrun;
       unfold bind at 1, read_text in Hrun; cbn [fs log] in Hrun;
       rewrite Hfile in Hrun; discriminate.
  destruct (json_loads text) as [v|] eqn:Hdoc.
  2: { unfold convert_pack in Hrun.
       rewrite bind_print, (bind_read_text _ text) in Hrun by done.
       unfold json_load in Hrun. rewrite Hdoc, bind_lift_raise in Hrun.
       discriminate. }
  assert (exists d, v = VDict d) as [d ->].
  { destruct v; eauto; exfalso; unfold convert_pack in Hrun;
      rewrite bind_print, (bind_read_text _ text) in Hrun by done;
      unfold json_load in Hrun; rewrite Hdoc, bind_lift_ok, bind_print in Hrun;
      discriminate. }
  exists d. rewrite (convert_pack_dict _ _ text d) in Hrun by done.
  unfold convert_pack_outcome in Hrun.
  destruct (accepted object_fields (Dict.get obj_key d)) eqn:Hobj.
  2: { rewrite (convert_field_rejected _ object_fields) in Hrun
         by (done || apply convert_object_schemas_dict). discriminate. }
  rewrite (convert_field_accepted _ object_fields) in Hrun
    by (done || apply convert_object_schemas_dict).
  destruct (accepted relationship_fields (Dict.get rel_key d)) eqn:Hrel.
  2: { rewrite (convert_field_rejected _ relationship_fields) in Hrun;
         [discriminate|apply convert_relationship_schemas_dict
         |by rewrite updated_other by apply keys_differ]. }
  rewrite (convert_field_accepted _ relationship_fields) in Hrun;
    [|apply convert_relationship_schemas_dict
     |by rewrite updated_other by apply keys_differ].
  destruct (open_w (fs w) output_path) as [[]|e] eqn:Hopen; [|discriminate].
  repeat split; eauto.
Qed.

(** ** [main] *)

Lemma main_converted argv w d :
  (2 <= length argv)%nat ->
  convertible w (input_path_of argv) (output_path_of argv) d ->
  main argv w
  = report (VDict (converted_pack d))
      (converted_world w (input_path_of argv) (output_path_of argv) d).
Proof.
  intros Hlen Hconv. unfold main. apply Nat.ltb_ge in Hlen. rewrite Hlen.
  fold (input_path_of argv). fold (output_path_of argv).
  destruct Hconv as ((text & Hfile & Hdoc) & Hrest) eqn:E. clear E.
  unfold bind at 1, path_exists.
  rewrite Hfile, bool_decide_eq_true_2 by eauto. cbn [negb].
  unfold bind at 1.
  rewrite (convert_pack_returns w _ _ d) by (split; eauto).
  reflexivity.
Qed.

Lemma report_fs converted w : fs (report converted w).2 = fs w.
Proof.
  unfold report. rewrite bind_print.
  destruct (py_getitem converted "name") as [nm|e];
    [rewrite bind_lift_ok|by rewrite bind_lift_raise].
  rewrite bind_print.
  destruct (py_getitem converted "version") as [v|e];
    [rewrite bind_lift_ok|by rewrite bind_lift_raise].
  rewrite bind_print.
  destruct (len_field converted "object_type_schemas") as [n|e];
    [rewrite bind_lift_ok|by rewrite bind_lift_raise].
  rewrite bind_print.
  destruct (len_field converted "relationship_type_schemas") as [n'|e];
    [rewrite bind_lift_ok|by rewrite bind_lift_raise].
  reflexivity.
Qed.

End Returns.



(** ** The claims about [convert_pack] and [main] *)

Section Claims.

Context `{Runtime}.




(** C8, amended. When [sys.argv] has no output path, the output is in
    the directory of the input and its name is the stem of the input
    followed by [-converted.json], whatever the suffix of the input; a
    run that converts writes the document there. *)
Theorem default_output_is_converted_json prog arg :
  let p := path_of arg in
  let out := {| anchor := anchor (parent p);
                names := names (parent p) ++ [stem p +:+ "-converted.json"] |} in
  output_path_of [prog; arg] = out
  /\ forall w d,
       convertible w p out d ->
       exists r w',
         main [prog; arg] w = (r, w')
         /\ fs w' = <[path_str out := File (json_dumps (VDict (converted_pack d)))]> (fs w).
Proof.
  intros p out.
  assert (output_path_of [prog; arg] = out) as Hout
    by apply default_output_path_shape.
  split; [done|]. intros w d Hconv.
  eexists _, _. split; [apply surjective_pairing|].
  rewrite (main_converted _ w d); [| simpl; lia | by rewrite Hout].
  rewrite report_fs. by rewrite Hout.
Qed.


End Claims.

(** ** The claims at concrete inputs *)

Ltac demo_convertible text :=
  unfold convertible;
  split; [exists text; split; vm_compute; reflexivity
         |repeat split; vm_compute; reflexivity].




Lemma default_output_is_converted_json_witness :
  exists r w',
    @main demo_runtime ["convert"; "packs/person.json"] demo_world = (r, w')
    /\ is_Some (fs w' !! "packs/person-converted.json").
Proof.
  destruct (proj2 (@default_output_is_converted_json demo_runtime
                     "convert" "packs/person.json") demo_world person_doc)
    as (r & w' & Hmain & Hfs).
  { demo_convertible (demo_dumps person_pack). }
  exists r, w'. split; [exact Hmain|]. rewrite Hfs.
  eexists. vm_compute. reflexivity.
Defined.


(** * Further properties of the script *)

(** ** The conversion functions on a value that is not a dictionary *)

(** X1. On a value that is not a dictionary the two conversion functions
    return the empty list when the value is falsy ([None], [False], zero,
    the empty string, the empty list) and raise [AttributeError] at
    [.items()] otherwise; in particular they raise on a non-empty list,
    the shape they produce. *)
Theorem convert_schemas_not_a_dict (v : value) :
  is_dict v = false ->
  convert_object_schemas v = (if truthy v then Raise AttributeError else Ok [])
  /\ convert_relationship_schemas v = (if truthy v then Raise AttributeError else Ok []).
Proof.
  intros Hv. unfold convert_object_schemas, convert_relationship_schemas.
  destruct (truthy v) eqn:Ht; simpl; [|done].
  by destruct v.
Qed.

Lemma convert_schemas_not_a_dict_witness :
  convert_object_schemas (VList [VDict [("name", VStr "Person")]]) = Raise AttributeError
  /\ convert_relationship_schemas (VList [VDict [("name", VStr "Person")]])
     = Raise AttributeError.
Proof.
  apply (convert_schemas_not_a_dict (VList [VDict [("name", VStr "Person")]])).
  reflexivity.
Defined.



Lemma updated_not_dict fields k d :
  exists v, Dict.get k (updated fields k d) = Some v /\ is_dict v = false.
Proof.
  rewrite updated_same. unfold new_collection.
  destruct (Dict.get k d) as [old|]; [|by eexists].
  destruct old; by eexists.
Qed.


Lemma converted_pack_not_dict d :
  exists vo vr,
    Dict.get obj_key (converted_pack d) = Some vo /\ is_dict vo = false
    /\ Dict.get rel_key (converted_pack d) = Some vr /\ is_dict vr = false.
Proof.
  destruct (updated_not_dict object_fields obj_key d) as (vo & Hvo & Hdo).
  destruct (updated_not_dict relationship_fields rel_key
              (updated object_fields obj_key d)) as (vr & Hvr & Hdr).
  exists vo, vr. unfold converted_pack.
  rewrite updated_other by (intros Heq; discriminate Heq). auto.
Qed.


Section Document.

Context `{Runtime}.

(** X2. Whenever [convert_pack] returns, the document it returns has both
    collection fields, and neither holds a dictionary: no legacy shape is
    left. *)
Theorem convert_pack_leaves_no_mapping w input_path output_path pack w' :
  convert_pack input_path output_path w = (Ok pack, w') ->
  exists vo vr,
    py_getitem pack obj_key = Ok vo /\ is_dict vo = false
    /\ py_getitem pack rel_key = Ok vr /\ is_dict vr = false.
Proof.
  intros Hrun.
  destruct (convert_pack_returns_only _ _ _ _ _ Hrun) as [d Hconv].
  rewrite (convert_pack_returns w _ _ d Hconv) in Hrun.
  injection Hrun as <- _.
  destruct (converted_pack_not_dict d) as (vo & vr & Hvo & Hdo & Hvr & Hdr).
  exists vo, vr. simpl. by rewrite Hvo, Hvr.
Qed.



End Document.

(** ** Paths: the default output is never the input *)

Lemma append_cancel_l s t u : s +:+ t = s +:+ u -> t = u.
Proof.
  induction s as [|a s IH]; [done|].
  intros Heq. apply IH. by injection Heq.
Qed.

Lemma length_append s t : String.length (s +:+ t) = (String.length s + String.length t)%nat.
Proof.
  induction s as [|a s IH]; [done|].
  change (String a s +:+ t) with (String a (s +:+ t)).
  cbn [String.length]. by rewrite IH.
Qed.

Lemma join_last_inj ds a b : join "/" (ds ++ [a]) = join "/" (ds ++ [b]) -> a = b.
Proof.
  induction ds as [|x ds IH]; [done|].
  change ((x :: ds) ++ [a])%list with (x :: (ds ++ [a]))%list.
  change ((x :: ds) ++ [b])%list with (x :: (ds ++ [b]))%list.
  cbn [join].
  destruct (ds ++ [a])%list as [|y ys] eqn:Ea; [by destruct ds|].
  destruct (ds ++ [b])%list as [|z zs] eqn:Eb; [by destruct ds|].
  intros Heq. apply append_cancel_l, append_cancel_l in Heq. by apply IH.
Qed.

Lemma rfind_append c s t j :
  rfind c t = Some j -> rfind c (s +:+ t) = Some (String.length s + j)%nat.
Proof.
  intros Ht. induction s as [|a s IH]; [done|].
  change (String a s +:+ t) with (String a (s +:+ t)).
  cbn [rfind String.length]. by rewrite IH.
Qed.

Lemma length_substring_prefix i s :
  (i <= String.length s)%nat -> String.length (String.substring 0 i s) = i.
Proof.
  revert i. induction s as [|a s IH]; intros [|i] Hi; simpl in *; try done; try lia.
  rewrite IH; lia.
Qed.

Lemma rfind_lt c s i : rfind c s = Some i -> (i < String.length s)%nat.
Proof.
  revert i. induction s as [|a s IH]; intros i; simpl; [done|].
  destruct (rfind c s) as [j|].
  - intros [= <-]. specialize (IH j eq_refl). lia.
  - destruct (Ascii.eqb a c); [|done]. intros [= <-]. lia.
Qed.

(** The name of the default output is not the name it is made from. *)
Lemma converted_name_differs nm :
  let stem_of :=
    match suffix_index nm with
    | Some i => String.substring 0 i nm
    | None => nm
    end in
  stem_of +:+ "-converted.json" <> nm.
Proof.
  intros stem_of Heq. unfold stem_of in *. clear stem_of.
  unfold suffix_index in Heq.
  destruct (rfind "."%char nm) as [i|] eqn:Hdot.
  - destruct ((0 <? i)%nat && (i <? String.length nm - 1)%nat) eqn:Hi.
    + pose proof (rfind_lt _ _ _ Hdot) as Hlt.
      pose proof (rfind_append "."%char (String.substring 0 i nm)
                    "-converted.json" 10 eq_refl) as Hdot'.
      rewrite Heq, Hdot, length_substring_prefix in Hdot' by lia.
      injection Hdot' as Hdot'. lia.
    + apply (f_equal String.length) in Heq. rewrite length_append in Heq.
      simpl in Heq. lia.
  - apply (f_equal String.length) in Heq. rewrite length_append in Heq.
    simpl in Heq. lia.
Qed.

Lemma removelast_last_eq {A} (l : list A) d :
  l <> [] -> l = (removelast l ++ [List.last l d])%list.
Proof. intros Hl. by apply app_removelast_last. Qed.

Lemma anchor_cases arg :
  anchor (path_of arg) = "" \/ anchor (path_of arg) = "/" \/ anchor (path_of arg) = "//".
Proof.
  unfold path_of. cbn [anchor].
  destruct (is_prefix "/" arg); [|by left].
  destruct (is_prefix "//" arg && negb (is_prefix "///" arg)); auto.
Qed.

(** X8. The default output path of [main] is never the input path: for
    every input argument the two path strings differ.  (The file system
    may still reach one file through two path strings.) *)
Theorem default_output_differs_from_input arg :
  path_str (default_output_path (path_of arg)) <> path_str (path_of arg).
Proof.
  rewrite default_output_path_shape. set (p := path_of arg).
  unfold path_str at 1. cbn [names anchor].
  destruct (names (parent p) ++ [stem p +:+ "-converted.json"])%list
    as [|x xs] eqn:Eout; [by destruct (names (parent p))|].
  rewrite <- Eout. clear x xs Eout.
  unfold path_str, parent, stem, name.
  destruct (names p) as [|n ns] eqn:Enames.
  - rewrite Enames. cbn [app join List.last].
    destruct (anchor_cases arg) as [Ha|[Ha|Ha]]; fold p in Ha; rewrite Ha;
      discriminate.
  - cbn [names anchor]. intros Heq. apply append_cancel_l in Heq.
    rewrite (removelast_last_eq (n :: ns) "") in Heq at 3 by done.
    apply join_last_inj in Heq.
    by apply (converted_name_differs (List.last (n :: ns) "")).
Qed.

(** ** Further properties of [main] *)

Section Main.

Context `{Runtime}.



End Main.

(** ** Running the script on its own output *)

Section Again.

Context `{Runtime}.



End Again.

(** ** The further properties at concrete inputs *)

Lemma convert_pack_leaves_no_mapping_witness :
  exists vo vr,
    py_getitem (VDict (converted_pack person_doc)) obj_key = Ok vo /\ is_dict vo = false
    /\ py_getitem (VDict (converted_pack person_doc)) rel_key = Ok vr /\ is_dict vr = false.
Proof.
  apply (@convert_pack_leaves_no_mapping demo_runtime demo_world
           (path_of "packs/person.json") (path_of "out.json")
           (VDict (converted_pack person_doc))
           (@converted_world demo_runtime demo_world (path_of "packs/person.json")
              (path_of "out.json") person_doc)).
  vm_compute. reflexivity.
Defined.





(** * The script in an environment that can fail: properties *)

Section EnvFacts.

Context `{Env.Host}.

Local Open Scope env_scope.

Lemma env_bind_print {A} line (k : unit -> Env.M A) w :
  Env.bind (Env.print line) k w
  = match Env.stdout_write (Env.stdout w) line with
    | None => k tt (Env.log w line)
    | Some e => (Raise e, w)
    end.
Proof. unfold Env.bind, Env.print. by destruct (Env.stdout_write _ _). Qed.

Lemma env_bind_lift_ok {A B} (a : A) (k : A -> Env.M B) w :
  Env.bind (Env.lift (Ok a)) k w = k a w.
Proof. reflexivity. Qed.

Lemma env_bind_lift_raise {A B} e (k : A -> Env.M B) w :
  Env.bind (Env.lift (Raise e)) k w = (Raise e, w).
Proof. reflexivity. Qed.

Lemma env_bind_load {A} p (k : value -> Env.M A) w :
  Env.bind (Env.load p) k w
  = match Env.read_file (Env.files w) p with
    | Ok text =>
        match Env.json_load text with
        | Ok v => k v w
        | Raise e => (Raise e, w)
        end
    | Raise e => (Raise e, w)
    end.
Proof.
  unfold Env.bind, Env.load.
  destruct (Env.read_file _ _); [|done]. by destruct (Env.json_load _).
Qed.

Lemma env_bind_dump {A} p v (k : unit -> Env.M A) w :
  Env.bind (Env.dump p v) k w
  = match Env.open_write (Env.files w) p with
    | Ok opened =>
        match Env.dump_file opened p v with
        | (d, None) => k tt {| Env.files := d; Env.stdout := Env.stdout w |}
        | (d, Some e) => (Raise e, {| Env.files := d; Env.stdout := Env.stdout w |})
        end
    | Raise e => (Raise e, w)
    end.
Proof.
  unfold Env.bind, Env.dump.
  destruct (Env.open_write _ _); [|done].
  by destruct (Env.dump_file _ _ _) as [d [e|]].
Qed.

Lemma env_len_field_set d k l :
  Env.len_field (VDict (Dict.set k (VList l) d)) k = Ok (length l).
Proof. unfold Env.len_field. simpl. by rewrite get_set_same. Qed.

Lemma printable_cons printed line lines :
  Env.printable printed (line :: lines) = true ->
  Env.stdout_write printed line = None
  /\ Env.printable (printed ++ [line]) lines = true.
Proof. simpl. by destruct (Env.stdout_write printed line). Qed.

(** One block of [convert_pack], followed by the rest of the function. *)
Lemma env_convert_block {A} conv noun k d (rest : value -> Env.M A) w :
  (old_schemas <- Env.lift (py_get (VDict d) k (VDict []));;
   pack <- (if is_dict old_schemas then
              new_schemas <- Env.lift (conv old_schemas);;
              pack <- Env.lift (py_setitem (VDict d) k (VList new_schemas));;
              n <- Env.lift (Env.len_field pack k);;
              Env.print ("  Converted " +:+ pretty n +:+ noun);;
              Env.ret pack
            else
              Env.print "  Already in array format, skipping";;
              Env.ret (VDict d));;
   rest pack) w
  = match convert_field conv noun k d with
    | Raise e => (Raise e, w)
    | Ok (d', line) =>
        match Env.stdout_write (Env.stdout w) line with
        | None => rest (VDict d') (Env.log w line)
        | Some e => (Raise e, w)
        end
    end.
Proof.
  unfold convert_field, default. simpl py_get. rewrite env_bind_lift_ok.
  destruct (is_dict _).
  - unfold Env.bind at 1. unfold Env.bind at 1. unfold Env.lift at 1.
    destruct (conv _) as [r|e]; [|reflexivity].
    simpl py_setitem. rewrite env_bind_lift_ok, env_len_field_set.
    unfold Env.bind, Env.lift, Env.print, Env.ret. cbn [rbind].
    by destruct (Env.stdout_write _ _).
  - unfold Env.bind, Env.print, Env.ret. cbn [rbind].
    by destruct (Env.stdout_write _ _).
Qed.

Lemma progress_line_updated fields fields' noun d :
  progress_line fields noun rel_key (updated fields' obj_key d)
  = progress_line fields noun rel_key d.
Proof. unfold progress_line. by rewrite updated_other by apply keys_differ. Qed.

Lemma convert_field_updated conv fields noun k d d' line :
  (forall m, conv (VDict m)
             = if forallb (fun e => negb (rejects fields e.2)) m
               then Ok (converted_entries fields m) else Raise TypeError) ->
  convert_field conv noun k d = Ok (d', line) ->
  accepted fields (Dict.get k d) = true
  /\ d' = updated fields k d /\ line = progress_line fields noun k d.
Proof.
  intros Hconv Hok. destruct (accepted fields (Dict.get k d)) eqn:Hacc.
  - rewrite (convert_field_accepted _ fields) in Hok by done.
    injection Hok as <- <-. done.
  - by rewrite (convert_field_rejected _ fields) in Hok.
Qed.

(** Sufficient conditions for [convert_pack] to return. *)
Lemma env_convert_pack_returns w input_path output_path text d opened d2 :
  Env.read_file (Env.files w) input_path = Ok text ->
  Env.json_load text = Ok (VDict d) ->
  accepted object_fields (Dict.get obj_key d) = true ->
  accepted relationship_fields (Dict.get rel_key d) = true ->
  Env.printable (Env.stdout w)
    (Env.progress input_path output_path d ++ ["✓ Conversion complete"]) = true ->
  Env.open_write (Env.files w) output_path = Ok opened ->
  Env.dump_file opened output_path (VDict (converted_pack d)) = (d2, None) ->
  Env.convert_pack input_path output_path w
  = (Ok (VDict (converted_pack d)),
     {| Env.files := d2;
        Env.stdout := Env.stdout w ++ Env.progress input_path output_path d
                      ++ ["✓ Conversion complete"] |}).
Proof.
  intros Hread Hload Hobj Hrel Hprint Hopen Hdump.
  unfold Env.progress in *. cbn [app] in Hprint.
  apply printable_cons in Hprint as [Hp1 Hprint].
  apply printable_cons in Hprint as [Hp2 Hprint].
  apply printable_cons in Hprint as [Hp3 Hprint].
  apply printable_cons in Hprint as [Hp4 Hprint].
  apply printable_cons in Hprint as [Hp5 Hprint].
  apply printable_cons in Hprint as [Hp6 Hprint].
  apply printable_cons in Hprint as [Hp7 _].
  unfold Env.convert_pack.
  rewrite env_bind_print, Hp1, env_bind_load. cbn [Env.files Env.log].
  rewrite Hread, Hload, env_bind_print. cbn [Env.stdout Env.log]. rewrite Hp2.
  rewrite env_convert_block. fold obj_key.
  rewrite (convert_field_accepted _ object_fields)
    by (done || apply convert_object_schemas_dict).
  cbn [Env.stdout Env.log]. rewrite Hp3.
  rewrite env_bind_print. cbn [Env.stdout Env.log]. rewrite Hp4.
  rewrite env_convert_block. fold rel_key.
  rewrite (convert_field_accepted _ relationship_fields);
    [|apply convert_relationship_schemas_dict
     |by rewrite updated_other by apply keys_differ].
  rewrite progress_line_updated. cbn [Env.stdout Env.log]. rewrite Hp5.
  rewrite env_bind_print. cbn [Env.stdout Env.log]. rewrite Hp6.
  rewrite env_bind_dump. cbn [Env.files Env.stdout Env.log].
  fold (converted_pack d). rewrite Hopen, Hdump.
  rewrite env_bind_print. cbn [Env.stdout Env.log]. rewrite Hp7.
  unfold Env.ret, Env.log. cbn [Env.files Env.stdout].
  by rewrite <- !app_assoc.
Qed.

(** What a [convert_pack] that returns has done. *)
Lemma env_convert_pack_returned w input_path output_path pack w1 :
  Env.convert_pack input_path output_path w = (Ok pack, w1) ->
  exists text d opened,
    Env.read_file (Env.files w) input_path = Ok text
    /\ Env.json_load text = Ok (VDict d)
    /\ pack = VDict (converted_pack d)
    /\ Env.open_write (Env.files w) output_path = Ok opened
    /\ Env.dump_file opened output_path pack = (Env.files w1, None).
Proof.
  unfold Env.convert_pack. intros Hrun.
  rewrite env_bind_print in Hrun.
  destruct (Env.stdout_write _ _); [discriminate|].
  rewrite env_bind_load in Hrun. cbn [Env.files Env.log] in Hrun.
  destruct (Env.read_file _ _) as [text|] eqn:Hread; [|discriminate].
  destruct (Env.json_load text) as [v|] eqn:Hload; [|discriminate].
  rewrite env_bind_print in Hrun.
  destruct (Env.stdout_write _ _); [discriminate|].
  destruct (is_dict v) eqn:Hv; [|by destruct v].
  destruct v as [| | | | | |d]; try discriminate.
  rewrite env_convert_block in Hrun. fold obj_key in Hrun.
  destruct (convert_field _ _ obj_key d) as [[d1 line1]|] eqn:Hf1; [|discriminate].
  apply (convert_field_updated _ object_fields) in Hf1
    as (_ & -> & _); [|apply convert_object_schemas_dict].
  destruct (Env.stdout_write _ _); [discriminate|].
  rewrite env_bind_print in Hrun.
  destruct (Env.stdout_write _ _); [discriminate|].
  rewrite env_convert_block in Hrun. fold rel_key in Hrun.
  destruct (convert_field _ _ rel_key _) as [[d2 line2]|] eqn:Hf2; [|discriminate].
  apply (convert_field_updated _ relationship_fields) in Hf2
    as (_ & -> & _); [|apply convert_relationship_schemas_dict].
  fold (converted_pack d) in Hrun.
  destruct (Env.stdout_write _ _); [discriminate|].
  rewrite env_bind_print in Hrun.
  destruct (Env.stdout_write _ _); [discriminate|].
  rewrite env_bind_dump in Hrun. cbn [Env.files Env.stdout Env.log] in Hrun.
  destruct (Env.open_write _ _) as [opened|] eqn:Hopen; [|discriminate].
  destruct (Env.dump_file _ _ _) as [d' [e|]] eqn:Hdump; [discriminate|].
  rewrite env_bind_print in Hrun.
  destruct (Env.stdout_write _ _); [discriminate|].
  injection Hrun as <- <-.
  exists text, d, opened. by repeat split.
Qed.

End EnvFacts.

Section EnvMain.

Context `{Env.Host}.

Local Open Scope env_scope.

Lemma env_main_found argv w :
  (2 <= length argv)%nat ->
  Env.path_exists (Env.files w) (input_path_of argv) = Ok true ->
  Env.main argv w
  = Env.bind (Env.convert_pack (input_path_of argv) (output_path_of argv))
      Env.report w.
Proof.
  intros Hlen Hfound. unfold Env.main. apply Nat.ltb_ge in Hlen. rewrite Hlen.
  fold (input_path_of argv). fold (output_path_of argv).
  unfold Env.bind at 1, Env.exists_. by rewrite Hfound.
Qed.

(** The summary on a document without [name] or without [version]. *)
Lemma env_report_missing d w :
  Dict.get "name" d = None \/ Dict.get "version" d = None ->
  exists e w',
    Env.report (VDict d) w = (Raise e, w')
    /\ Env.files w' = Env.files w
    /\ (Env.printable (Env.stdout w) (Env.summary_start d) = true ->
        (exists k, e = KeyError k /\ Dict.get k d = None)
        /\ Env.stdout w' = (Env.stdout w ++ Env.summary_start d)%list)
    /\ (Env.printable (Env.stdout w) (Env.summary_start d) = false ->
        exists printed line, Env.stdout_write printed line = Some e).
Proof.
  intros Hmiss. unfold Env.report, Env.summary_start.
  rewrite env_bind_print. simpl py_getitem. cbn [Env.printable].
  destruct (Env.stdout_write (Env.stdout w) _) as [e|] eqn:Hp1.
  { exists e, w. split; [reflexivity|]. split; [reflexivity|].
    split; [discriminate|intros _; eauto]. }
  destruct (Dict.get "name" d) as [nm|] eqn:Hname.
  - destruct Hmiss as [Hmiss|Hver]; [discriminate|].
    rewrite Hver, env_bind_lift_ok, env_bind_print.
    cbn [Env.printable Env.stdout Env.log].
    destruct (Env.stdout_write (Env.stdout w ++ _) _) as [e|] eqn:Hp2.
    + eexists e, _. split; [reflexivity|]. split; [reflexivity|].
      split; [discriminate|intros _; eauto].
    + rewrite env_bind_lift_raise. eexists _, _. split; [reflexivity|].
      split; [done|]. split; [|discriminate].
      intros _. split; [by exists "version"|].
      cbn [Env.stdout Env.log]. by rewrite <- app_assoc.
  - rewrite env_bind_lift_raise. cbn [Env.printable].
    eexists _, _. split; [reflexivity|]. split; [done|]. split; [|discriminate].
    intros _. split; [by exists "name"|done].
Qed.

(** C7, amended. Without an input path argument, or with one that
    [exists()] reports as missing, [main] writes nothing; when [print]
    accepts the diagnostic line, [main] prints it, the line naming the
    path in the second case, and raises [SystemExit(1)], so the exit
    status is 1; when [print] raises, that exception is uncaught.  When
    [exists()] itself raises, that exception is uncaught and no [print]
    is reached; nothing is written either. *)
Theorem main_missing_input argv w :
  ((length argv < 2)%nat
   \/ ((2 <= length argv)%nat
       /\ Env.path_exists (Env.files w) (input_path_of argv) = Ok false) ->
   let line :=
     if (length argv <? 2)%nat
     then "Usage: convert-pack-format.py <input.json> [output.json]"
     else "Error: " +:+ path_str (input_path_of argv) +:+ " not found" in
   Env.main argv w
   = match Env.stdout_write (Env.stdout w) line with
     | None =>
         (Raise (SystemExit 1),
          {| Env.files := Env.files w; Env.stdout := Env.stdout w ++ [line] |})
     | Some e => (Raise e, w)
     end
   /\ exit_status (Raise (SystemExit 1)) = 1%Z
   /\ Env.files (Env.main argv w).2 = Env.files w)
  /\ (forall e,
        (2 <= length argv)%nat ->
        Env.path_exists (Env.files w) (input_path_of argv) = Raise e ->
        Env.main argv w = (Raise e, w)).
Proof.
  split.
  - intros Hcase line.
    assert (Env.main argv w
            = match Env.stdout_write (Env.stdout w) line with
              | None =>
                  (Raise (SystemExit 1),
                   {| Env.files := Env.files w; Env.stdout := Env.stdout w ++ [line] |})
              | Some e => (Raise e, w)
              end) as Hmain.
    { unfold Env.main, line. destruct Hcase as [Hlen|[Hlen Hmissing]].
      - apply Nat.ltb_lt in Hlen. rewrite Hlen, env_bind_print.
        by destruct (Env.stdout_write _ _).
      - apply Nat.ltb_ge in Hlen. rewrite Hlen. fold (input_path_of argv).
        unfold Env.bind at 1, Env.exists_. rewrite Hmissing. cbn [negb].
        rewrite env_bind_print. by destruct (Env.stdout_write _ _). }
    split; [exact Hmain|]. split; [done|].
    rewrite Hmain. by destruct (Env.stdout_write _ _).
  - intros e Hlen Hraise. unfold Env.main. apply Nat.ltb_ge in Hlen.
    rewrite Hlen. fold (input_path_of argv).
    unfold Env.bind at 1, Env.exists_. by rewrite Hraise.
Qed.

(** C9, amended. [convert_pack] writes the output before [main] reads
    the fields of the summary: when the converted document lacks one of
    [name], [version] and the two collections, [main] ends with an
    uncaught exception while the output file has been opened and the
    document dumped to it.  The exception is the [KeyError] of the
    missing field, the failure the spec calls MissingRequiredField, when
    [print] accepts the lines of the summary that come before that
    field; otherwise it is the exception that [print] raised. *)
Theorem main_summary_after_write argv w pack w1 k :
  (2 <= length argv)%nat ->
  Env.path_exists (Env.files w) (input_path_of argv) = Ok true ->
  Env.convert_pack (input_path_of argv) (output_path_of argv) w = (Ok pack, w1) ->
  In k ["name"; "version"; obj_key; rel_key] ->
  py_getitem pack k = Raise (KeyError k) ->
  exists opened d e w',
    Env.open_write (Env.files w) (output_path_of argv) = Ok opened
    /\ Env.dump_file opened (output_path_of argv) pack = (Env.files w1, None)
    /\ pack = VDict d
    /\ Env.main argv w = (Raise e, w')
    /\ Env.files w' = Env.files w1
    /\ (Env.printable (Env.stdout w1) (Env.summary_start d) = true ->
        MissingRequiredField e
        /\ Env.stdout w' = (Env.stdout w1 ++ Env.summary_start d)%list)
    /\ (Env.printable (Env.stdout w1) (Env.summary_start d) = false ->
        exists printed line, Env.stdout_write printed line = Some e).
Proof.
  intros Hlen Hfound Hrun Hin Hk.
  destruct (env_convert_pack_returned _ _ _ _ _ Hrun)
    as (text & d & opened & _ & _ & Hpack & Hopen & Hdump).
  assert (Dict.get "name" (converted_pack d) = None
          \/ Dict.get "version" (converted_pack d) = None) as Hmiss.
  { rewrite Hpack in Hk. simpl in Hk, Hin.
    assert (Dict.get k (converted_pack d) = None) as Hnone
      by (destruct (Dict.get k (converted_pack d)); [discriminate|done]).
    destruct Hin as [<-|[<-|[<-|[<-|[]]]]]; auto.
    - exfalso. revert Hnone. unfold converted_pack.
      rewrite updated_other by (intros Heq; discriminate Heq).
      apply updated_present.
    - exfalso. revert Hnone. apply updated_present. }
  destruct (env_report_missing _ w1 Hmiss) as (e & w' & Hrep & Hfiles & Hok & Hbad).
  exists opened, (converted_pack d), e, w'.
  split; [done|]. split; [done|]. split; [done|].
  split. { rewrite env_main_found by done. unfold Env.bind. by rewrite Hrun, Hpack. }
  split; [done|]. split; [|done].
  intros Hprint. destruct (Hok Hprint) as [(k' & -> & _) Hout].
  split; [by exists k'|done].
Qed.

End EnvMain.

Section EnvMore.

Context `{Env.Host}.

Local Open Scope env_scope.

Lemma printable_app printed lines lines' :
  Env.printable printed (lines ++ lines') = true ->
  Env.printable printed lines = true
  /\ Env.printable (printed ++ lines) lines' = true.
Proof.
  revert printed. induction lines as [|line lines IH]; intros printed; simpl.
  - by rewrite app_nil_r.
  - destruct (Env.stdout_write printed line); [done|].
    intros Hp. apply IH in Hp as [Hp1 Hp2]. by rewrite <- app_assoc in Hp2.
Qed.

(** X5. Whatever exception [json.load] raises on the input file ends
    [convert_pack], after the line [Reading ...] and with nothing
    written; an input whose top level is not an object makes
    [convert_pack] raise [AttributeError] at the first [pack.get], after
    the second line and with nothing written. *)
Theorem env_convert_pack_not_an_object w input_path output_path text :
  Env.read_file (Env.files w) input_path = Ok text ->
  Env.stdout_write (Env.stdout w) ("Reading " +:+ path_str input_path +:+ "...") = None ->
  match Env.json_load text with
  | Raise e =>
      Env.convert_pack input_path output_path w
      = (Raise e,
         {| Env.files := Env.files w;
            Env.stdout := Env.stdout w ++ ["Reading " +:+ path_str input_path +:+ "..."] |})
  | Ok v =>
      is_dict v = false ->
      Env.stdout_write
        (Env.stdout w ++ ["Reading " +:+ path_str input_path +:+ "..."])
        "Converting object_type_schemas..." = None ->
      Env.convert_pack input_path output_path w
      = (Raise AttributeError,
         {| Env.files := Env.files w;
            Env.stdout := Env.stdout w ++ ["Reading " +:+ path_str input_path +:+ "...";
                                           "Converting object_type_schemas..."] |})
  end.
Proof.
  intros Hread Hp1. unfold Env.convert_pack.
  rewrite env_bind_print, Hp1, env_bind_load. cbn [Env.files Env.log].
  rewrite Hread. destruct (Env.json_load text) as [v|e]; [|done].
  intros Hv Hp2. rewrite env_bind_print. cbn [Env.stdout Env.log]. rewrite Hp2.
  destruct v; try discriminate; unfold Env.log; simpl; by rewrite <- app_assoc.
Qed.

(** X10. When both collections of the input are legacy mappings that
    convert, the document has [name] and [version], the output is
    written and [print] accepts every line, [main] returns, so the exit
    status is 0, and the last two lines it prints give the numbers of
    entries of the two mappings. *)
Theorem env_main_reports_counts argv w text d nm version objs rels opened d2 :
  (2 <= length argv)%nat ->
  Env.path_exists (Env.files w) (input_path_of argv) = Ok true ->
  Env.read_file (Env.files w) (input_path_of argv) = Ok text ->
  Env.json_load text = Ok (VDict d) ->
  Dict.get "name" d = Some nm ->
  Dict.get "version" d = Some version ->
  Dict.get obj_key d = Some (VDict objs) ->
  Dict.get rel_key d = Some (VDict rels) ->
  accepted object_fields (Dict.get obj_key d) = true ->
  accepted relationship_fields (Dict.get rel_key d) = true ->
  Env.open_write (Env.files w) (output_path_of argv) = Ok opened ->
  Env.dump_file opened (output_path_of argv) (VDict (converted_pack d)) = (d2, None) ->
  let lines :=
    ((Env.progress (input_path_of argv) (output_path_of argv) d
      ++ ["✓ Conversion complete"])
     ++ [String "010" "Validation:";
         "  Name: " +:+ Env.format_value nm;
         "  Version: " +:+ Env.format_value version;
         "  Object types: " +:+ pretty (length objs);
         "  Relationship types: " +:+ pretty (length rels)])%list in
  Env.printable (Env.stdout w) lines = true ->
  Env.main argv w
  = (Ok tt, {| Env.files := d2; Env.stdout := Env.stdout w ++ lines |})
  /\ exit_status (Ok tt) = 0%Z.
Proof.
  intros Hlen Hfound Hread Hload Hname Hver Hobj Hrel Haobj Harel Hopen Hdump
    lines Hprint.
  split; [|done]. unfold lines in *. clear lines.
  apply printable_app in Hprint as [Hprint Hsum].
  rewrite env_main_found by done. unfold Env.bind at 1.
  rewrite (env_convert_pack_returns w _ _ text d opened d2) by done.
  apply printable_cons in Hsum as [Hp1 Hsum].
  apply printable_cons in Hsum as [Hp2 Hsum].
  apply printable_cons in Hsum as [Hp3 Hsum].
  apply printable_cons in Hsum as [Hp4 Hsum].
  apply printable_cons in Hsum as [Hp5 _].
  unfold Env.report, Env.len_field. cbn [py_getitem]. fold obj_key rel_key.
  rewrite !converted_pack_other by discriminate.
  rewrite converted_pack_obj, converted_pack_rel, Hname, Hver, Hobj, Hrel.
  cbn [new_collection rbind py_len].
  unfold converted_entries. rewrite !length_map.
  rewrite env_bind_print. cbn [Env.stdout Env.log]. rewrite Hp1.
  rewrite env_bind_lift_ok, env_bind_print. cbn [Env.stdout Env.log]. rewrite Hp2.
  rewrite env_bind_lift_ok, env_bind_print. cbn [Env.stdout Env.log]. rewrite Hp3.
  rewrite env_bind_lift_ok, env_bind_print. cbn [Env.stdout Env.log]. rewrite Hp4.
  rewrite env_bind_lift_ok. unfold Env.print. cbn [Env.stdout Env.log]. rewrite Hp5.
  unfold Env.log. cbn [Env.files Env.stdout]. by rewrite <- !app_assoc.
Qed.

(** X11. A collection that holds [None], a boolean or a number passes
    through [convert_pack] and then, when [print] accepts the lines
    before it, makes the summary of [main] raise [TypeError] at [len],
    after the output file has been written. *)
Theorem env_main_scalar_collection argv w text d nm version v opened d2 :
  (2 <= length argv)%nat ->
  Env.path_exists (Env.files w) (input_path_of argv) = Ok true ->
  Env.read_file (Env.files w) (input_path_of argv) = Ok text ->
  Env.json_load text = Ok (VDict d) ->
  Dict.get "name" d = Some nm ->
  Dict.get "version" d = Some version ->
  Dict.get obj_key d = Some v ->
  py_len v = Raise TypeError ->
  accepted relationship_fields (Dict.get rel_key d) = true ->
  Env.open_write (Env.files w) (output_path_of argv) = Ok opened ->
  Env.dump_file opened (output_path_of argv) (VDict (converted_pack d)) = (d2, None) ->
  let lines :=
    ((Env.progress (input_path_of argv) (output_path_of argv) d
      ++ ["✓ Conversion complete"])
     ++ [String "010" "Validation:";
         "  Name: " +:+ Env.format_value nm;
         "  Version: " +:+ Env.format_value version])%list in
  Env.printable (Env.stdout w) lines = true ->
  Env.main argv w
  = (Raise TypeError, {| Env.files := d2; Env.stdout := Env.stdout w ++ lines |})
  /\ py_getitem (VDict (converted_pack d)) obj_key = Ok v.
Proof.
  intros Hlen Hfound Hread Hload Hname Hver Hobj Hv Harel Hopen Hdump lines Hprint.
  assert (Dict.get obj_key (converted_pack d) = Some v) as Hsame.
  { rewrite converted_pack_obj, Hobj. by destruct v. }
  split; [|by simpl; rewrite Hsame]. unfold lines in *. clear lines.
  apply printable_app in Hprint as [Hprint Hsum].
  rewrite env_main_found by done. unfold Env.bind at 1.
  rewrite (env_convert_pack_returns w _ _ text d opened d2);
    [|done|done|by rewrite Hobj; destruct v|done|done|done|done].
  apply printable_cons in Hsum as [Hp1 Hsum].
  apply printable_cons in Hsum as [Hp2 Hsum].
  apply printable_cons in Hsum as [Hp3 _].
  unfold Env.report, Env.len_field. cbn [py_getitem]. fold obj_key.
  rewrite !converted_pack_other by discriminate.
  rewrite Hname, Hver, Hsame. cbn [rbind]. rewrite Hv.
  rewrite env_bind_print. cbn [Env.stdout Env.log]. rewrite Hp1.
  rewrite env_bind_lift_ok, env_bind_print. cbn [Env.stdout Env.log]. rewrite Hp2.
  rewrite env_bind_lift_ok, env_bind_print. cbn [Env.stdout Env.log]. rewrite Hp3.
  rewrite env_bind_lift_raise.
  unfold Env.log. cbn [Env.files Env.stdout]. by rewrite <- !app_assoc.
Qed.

End EnvMore.

(** ** The properties in a failing environment, at concrete inputs *)

(** C7, as the spec states it, fails.  The file name of 256 letters
    names no file, yet [exists()] raises [OSError] (the name is too
    long): [main] ends with that exception, without the diagnostic line
    and without [SystemExit].  A missing path that holds the surrogate
    of an undecodable byte is reported missing, and the [print] of the
    diagnostic line raises [UnicodeEncodeError]: no line is printed. *)
Lemma missing_input_without_diagnostic :
  lookup_path strict_fs (path_of (replicate_char "a" 256)) = None
  /\ @Env.main strict_host ["convert"; replicate_char "a" 256] strict_world
     = (Raise (OSError 36), strict_world)
  /\ @Env.path_exists strict_host strict_fs (path_of escaped_byte) = Ok false
  /\ @Env.main strict_host ["convert"; escaped_byte] strict_world
     = (Raise UnicodeEncodeError, strict_world)
  /\ @Env.stdout strict_host strict_world = [].
Proof. repeat split; vm_compute; reflexivity. Qed.

Lemma main_missing_input_witness :
  @Env.main strict_host ["convert"; "packs/missing.json"] strict_world
  = (Raise (SystemExit 1),
     @Env.Build_world strict_host strict_fs ["Error: packs/missing.json not found"])
  /\ @Env.main strict_host ["convert"; replicate_char "a" 256] strict_world
     = (Raise (OSError 36), strict_world).
Proof.
  split.
  - destruct (proj1 (@main_missing_input strict_host
                       ["convert"; "packs/missing.json"] strict_world))
      as (Hmain & _ & _).
    { right. split; [simpl; lia|vm_compute; reflexivity]. }
    rewrite Hmain. vm_compute. reflexivity.
  - apply (proj2 (@main_missing_input strict_host
                    ["convert"; replicate_char "a" 256] strict_world)).
    + simpl. lia.
    + vm_compute. reflexivity.
Defined.

(** C9, as the spec states it, fails.  The document of
    [packs/surrogate.json] has a [name] that holds a surrogate code point
    and no [version]: the run writes the output and then ends with the
    [UnicodeEncodeError] of the [print] of the name, which is not a
    MissingRequiredField failure; [version] is never read. *)
Lemma summary_fails_before_missing_field :
  Dict.get "version" (converted_pack surrogate_doc) = None
  /\ (exists w',
        @Env.main strict_host ["convert"; "packs/surrogate.json"; "out.json"]
          strict_world = (Raise UnicodeEncodeError, w')
        /\ (@Env.files strict_host w' : gmap string node) !! "out.json"
           = Some (File (demo_dumps (VDict (converted_pack surrogate_doc)))))
  /\ ~ MissingRequiredField UnicodeEncodeError.
Proof.
  split; [reflexivity|]. split.
  - eexists. split; vm_compute; reflexivity.
  - intros [k Hk]. discriminate Hk.
Qed.

Lemma main_summary_after_write_witness :
  exists e w',
    @Env.main strict_host ["convert"; "packs/nameless.json"; "out.json"] strict_world
    = (Raise e, w')
    /\ MissingRequiredField e
    /\ (@Env.files strict_host w' : gmap string node) !! "out.json"
       = Some (File (demo_dumps (VDict (converted_pack nameless_doc)))).
Proof.
  destruct (@main_summary_after_write strict_host
              ["convert"; "packs/nameless.json"; "out.json"] strict_world
              (VDict (converted_pack nameless_doc))
              (@Env.convert_pack strict_host (path_of "packs/nameless.json")
                 (path_of "out.json") strict_world).2
              "name")
    as (opened & d & e & w' & Hopen & Hdump & Hpack & Hmain & Hfiles & Hok & _).
  - simpl. lia.
  - vm_compute. reflexivity.
  - vm_compute. reflexivity.
  - left. reflexivity.
  - reflexivity.
  - exists e, w'. split; [exact Hmain|].
    injection Hpack as <-. split.
    + apply Hok. vm_compute. reflexivity.
    + rewrite Hfiles. vm_compute. reflexivity.
Defined.

Lemma env_convert_pack_not_an_object_witness :
  @Env.convert_pack strict_host (path_of "packs/list.json") (path_of "out.json")
    strict_world
  = (Raise AttributeError,
     @Env.Build_world strict_host strict_fs
       ["Reading packs/list.json..."; "Converting object_type_schemas..."])
  /\ @Env.convert_pack strict_host (path_of "packs/bad.json") (path_of "out.json")
       strict_world
     = (Raise JSONDecodeError,
        @Env.Build_world strict_host strict_fs ["Reading packs/bad.json..."]).
Proof.
  split.
  - pose proof (@env_convert_pack_not_an_object strict_host strict_world
                  (path_of "packs/list.json") (path_of "out.json")
                  (demo_dumps (VList []))) as Hrun.
    change (@Env.json_load strict_host (demo_dumps (VList [])))
      with (@Ok value (VList [])) in Hrun.
    rewrite Hrun; try (vm_compute; reflexivity).
  - pose proof (@env_convert_pack_not_an_object strict_host strict_world
                  (path_of "packs/bad.json") (path_of "out.json") "{") as Hrun.
    change (@Env.json_load strict_host "{")
      with (@Raise value JSONDecodeError) in Hrun.
    rewrite Hrun; try (vm_compute; reflexivity).
Defined.

Lemma env_main_reports_counts_witness :
  exists w',
    @Env.main strict_host ["convert"; "packs/person.json"; "out.json"] strict_world
    = (Ok tt, w')
    /\ List.last (@Env.stdout strict_host w') "" = "  Relationship types: 1".
Proof.
  destruct (@env_main_reports_counts strict_host
              ["convert"; "packs/person.json"; "out.json"] strict_world
              (demo_dumps person_pack) person_doc (VStr "P") (VStr "1")
              [("Person", VDict [("label", VStr "Person");
                                 ("properties", VDict [("age", VStr "number")])])]
              [("KNOWS", VDict [("sourceTypes", VList [VStr "Person"]);
                                ("targetTypes", VList [VStr "Person"])])]
              (<["out.json" := File ""]> strict_fs)
              (<["out.json" := File (demo_dumps (VDict (converted_pack person_doc)))]>
                 (<["out.json" := File ""]> strict_fs)))
    as (Hmain & _); try (vm_compute; reflexivity).
  - simpl. lia.
  - eexists. split; [exact Hmain|]. vm_compute. reflexivity.
Defined.

Lemma env_main_scalar_collection_witness :
  exists w',
    @Env.main strict_host ["convert"; "packs/odd.json"; "out.json"] strict_world
    = (Raise TypeError, w')
    /\ (@Env.files strict_host w' : gmap string node) !! "out.json"
       = Some (File (demo_dumps (VDict (converted_pack odd_doc)))).
Proof.
  destruct (@env_main_scalar_collection strict_host
              ["convert"; "packs/odd.json"; "out.json"] strict_world
              (demo_dumps odd_pack) odd_doc (VStr "P") (VStr "1") VNone
              (<["out.json" := File ""]> strict_fs)
              (<["out.json" := File (demo_dumps (VDict (converted_pack odd_doc)))]>
                 (<["out.json" := File ""]> strict_fs)))
    as (Hmain & _); try (vm_compute; reflexivity).
  - simpl. lia.
  - eexists. split; [exact Hmain|]. vm_compute. reflexivity.
Defined.

(** ** The first embedding is the script over the host without failures *)

Section Reliable.

Context `{Runtime}.

Lemma same_run_ret {A} (a : A) : same_run (ret a) (Env.ret a).
Proof. intros w. reflexivity. Qed.

Lemma same_run_raise {A} e : same_run (@raise A e) (Env.raise e).
Proof. intros w. reflexivity. Qed.

Lemma same_run_lift {A} (r : res A) : same_run (lift r) (Env.lift r).
Proof. intros w. reflexivity. Qed.

Lemma same_run_print line : same_run (print line) (Env.print line).
Proof. intros w. reflexivity. Qed.

Lemma same_run_exists p : same_run (path_exists p) (Env.exists_ p).
Proof. intros w. reflexivity. Qed.

Lemma same_run_bind {A B} (m : M A) m' (k : A -> M B) k' :
  same_run m m' -> (forall a, same_run (k a) (k' a)) ->
  same_run (bind m k) (Env.bind m' k').
Proof.
  intros Hm Hk w. unfold bind, Env.bind. rewrite Hm.
  destruct (m w) as [[a|e] w1]; [apply Hk|reflexivity].
Qed.

Lemma same_run_load {A} p (k : value -> M A) k' :
  (forall v, same_run (k v) (k' v)) ->
  same_run (bind (read_text p) (fun text => bind (lift (json_load text)) k))
    (Env.bind (Env.load p) k').
Proof.
  intros Hk w. unfold bind, Env.bind, read_text, Env.load, lift. simpl.
  destruct (lookup_path (fs w) p) as [[content|]|]; try reflexivity.
  destruct (json_load content); [apply Hk|reflexivity].
Qed.

Lemma same_run_dump {A} p v (k : unit -> M A) k' :
  (forall u, same_run (k u) (k' u)) ->
  same_run (bind (write_text p (json_dumps v)) k) (Env.bind (Env.dump p v) k').
Proof.
  intros Hk w. unfold bind, Env.bind, write_text, Env.dump. simpl.
  destruct (open_w (fs w) p) as [[]|e]; [|reflexivity].
  exact (Hk tt {| fs := <[path_str p := File (json_dumps v)]> (fs w);
                  stdout := stdout w |}).
Qed.

Ltac same_run_step :=
  first [ apply same_run_print | apply same_run_lift | apply same_run_ret
        | apply same_run_raise | apply same_run_exists
        | apply same_run_load; intros ?
        | apply same_run_dump; intros ?
        | apply same_run_bind; [|intros ?]
        | match goal with |- same_run (if ?b then _ else _) _ => destruct b end ].

Lemma same_run_convert_pack input_path output_path :
  same_run (convert_pack input_path output_path)
    (Env.convert_pack input_path output_path).
Proof. unfold convert_pack, Env.convert_pack. repeat same_run_step. Qed.

(** Over the host without failures [Env.main] is [main]. *)
Lemma same_run_main argv : same_run (main argv) (Env.main argv).
Proof.
  unfold main, Env.main. destruct (length argv <? 2)%nat.
  - repeat same_run_step.
  - apply same_run_bind; [apply same_run_exists|]. intros found.
    destruct (negb found); [repeat same_run_step|].
    apply same_run_bind; [apply same_run_convert_pack|]. intros converted.
    repeat same_run_step.
Qed.

End Reliable.
